(** * sktime: Box-Cox transformation and time series forest regression

    A shallow embedding of
      - [sktime/transformations/series/boxcox.py]
      - [sktime/regression/interval_based/_tsf.py]

    Conventions.
    - A numpy [float64] is idealised as a real number ([R]); rounding, [nan]
      and [inf] are outside the model.
    - A Python exception is a value of [exn]; a call that may raise returns
      a [result].
    - Functions of numpy and [scipy.special] are modelled by their documented
      behaviour.  The minimizers and statistics of scipy, the trees of
      scikit-learn and the functions of sktime that live outside the two
      files are fields of a class of collaborators, or are modelled from the
      specification where a doc comment says so. *)

From Stdlib Require Import Reals Lra Lia String List Bool Arith ZArith Permutation.
From Stdlib Require Import FunctionalExtensionality.
Import ListNotations.

Open Scope R_scope.

(** ** Exceptions and fallible calls *)

Inductive exn : Type :=
| ValueError (msg : string)
| TypeError (msg : string)
| IndexError (msg : string)
| NotFittedError (msg : string).

Inductive result (A : Type) : Type :=
| Ok (a : A)
| Raise (e : exn).

Arguments Ok {A} a.
Arguments Raise {A} e.

Definition bind {A B : Type} (c : result A) (k : A -> result B) : result B :=
  match c with
  | Ok a => k a
  | Raise e => Raise e
  end.

Notation "x <- c ;; k" := (bind c (fun x => k))
  (at level 61, c at next level, right associativity).

(** The messages of the [raise] statements, as the source spells them. *)
Module Msg.
Definition one_dimensional : string := "Data must be 1-dimensional.".
Definition not_constant : string := "Data must not be constant.".
Definition positive : string := "Data must be positive.".
Definition guerrero_sp : string :=
  "Guerrero method requires an integer seasonal periodicity (sp) value >= 2.".
(* the f-string goes on with the repr of [bounds], which is not modelled *)
Definition bounds_tuple : string := "`bounds` must be a tuple of length 2, but found: ".
Definition method_unknown (method : string) : string :=
  "Method " ++ method ++ " not recognized.".
Definition time_points : string :=
  "The number of time points in the training data does not match that in the test data.".
Definition not_fitted : string :=
  "This instance has not been fitted yet; please call `fit` first.".
Definition broadcast : string := "operands could not be broadcast together".
Definition reshape : string := "cannot reshape array".
Definition series_length : string := "Length of values does not match length of index".
Definition squeeze : string :=
  "cannot select an axis to squeeze out which has size not equal to one".
Definition inhomogeneous : string := "inhomogeneous shape".
Definition list_index : string := "list index out of range".
Definition lmbda_none : string := "ufunc 'boxcox' not supported for the input types".
End Msg.

(** The error taxonomy of the specification, and the class each exception
    of the code falls in. *)
Inductive spec_error : Type :=
| InvalidParameter
| ShapeError
| DomainError
| DegenerateInputError
| NotFitted
| OtherError.

Definition spec_error_of (e : exn) : spec_error :=
  match e with
  | ValueError m =>
      if String.eqb m Msg.one_dimensional then ShapeError
      else if String.eqb m Msg.not_constant then DegenerateInputError
      else if String.eqb m Msg.positive then DomainError
      else if String.eqb m Msg.guerrero_sp then InvalidParameter
      else if String.prefix Msg.bounds_tuple m then InvalidParameter
      else if String.prefix "Method " m then InvalidParameter
      else OtherError
  | TypeError m =>
      if String.eqb m Msg.time_points then ShapeError else OtherError
  | IndexError _ => OtherError
  | NotFittedError _ => NotFitted
  end.

Definition fails_with {A : Type} (c : result A) (k : spec_error) : Prop :=
  exists e, c = Raise e /\ spec_error_of e = k.

(** ** numpy arrays of floats *)

Definition float_eqb (a b : R) : bool := if Req_dec_T a b then true else false.
Definition float_leb (a b : R) : bool := if Rle_dec a b then true else false.

(** An [ndarray] is its shape and its elements in C order. *)
Record ndarray : Type := mk_ndarray { shape : list nat; data : list R }.

Definition ndim (a : ndarray) : nat := length (shape a).
Definition size (a : ndarray) : nat := fold_right Nat.mul 1%nat (shape a).

(** [np.asarray] of a flat sequence of floats. *)
Definition np_asarray (l : list R) : ndarray :=
  {| shape := [length l]; data := l |}.

(** [x[0]] of a 1-D array known to be non-empty. *)
Definition item0 (a : ndarray) : R := nth 0 (data a) 0.

(** [np.all(x == s)] and [any(x <= s)] for a scalar [s]. *)
Definition np_all_eq (a : ndarray) (s : R) : bool :=
  forallb (fun v => float_eqb v s) (data a).
Definition any_le (a : ndarray) (s : R) : bool :=
  existsb (fun v => float_leb v s) (data a).

Definition np_sum (l : list R) : R := fold_left Rplus l 0.

(** [np.mean] and [np.std(ddof=...)] of one row. *)
Definition np_mean (l : list R) : R := np_sum l / INR (length l).
Definition np_std (ddof : nat) (l : list R) : R :=
  let m := np_mean l in
  sqrt (np_sum (map (fun v => (v - m) * (v - m)) l) / INR (length l - ddof)).

(** [scipy.stats.variation]: standard deviation (ddof=0) over mean. *)
Definition variation (l : list R) : R := np_std 0 l / np_mean l.

(** ** scipy.special.boxcox and inv_boxcox

    The two ufuncs, as scipy computes them: [expm1(lmbda * log(x)) / lmbda]
    and [exp(log1p(lmbda * x) / lmbda)].  The guard of the C code for
    [lmbda] below [1e-19] is its floating-point form of [lmbda == 0]. *)

Definition expm1 (t : R) : R := exp t - 1.
Definition log1p (t : R) : R := ln (1 + t).

Definition special_boxcox1 (x lmbda : R) : R :=
  if Req_dec_T lmbda 0 then ln x else expm1 (lmbda * ln x) / lmbda.

Definition special_inv_boxcox1 (x lmbda : R) : R :=
  if Req_dec_T lmbda 0 then exp x else exp (log1p (lmbda * x) / lmbda).

(** The second argument of the ufuncs is [self.lambda_]: a float, or the
    array of two floats that method "all" leaves there. *)
Inductive lambda_value : Type :=
| LScalar (l : R)
| LVector (v : list R).

(** Broadcasting of a binary ufunc over 1-D operands. *)
Definition broadcast1 (f : R -> R -> R) (xs ls : list R) : result (list R) :=
  if (length xs =? length ls)%nat then Ok (map (fun p => f (fst p) (snd p)) (combine xs ls))
  else match xs, ls with
       | _, [l] => Ok (map (fun x => f x l) xs)
       | [x], _ => Ok (map (fun l => f x l) ls)
       | _, _ => Raise (ValueError Msg.broadcast)
       end.

Definition ufunc (f : R -> R -> R) (xs : list R) (lam : option lambda_value)
  : result (list R) :=
  match lam with
  | None => Raise (TypeError Msg.lmbda_none)
  | Some (LScalar l) => Ok (map (fun x => f x l) xs)
  | Some (LVector v) => broadcast1 f xs v
  end.

(** [x.reshape((-1, ncols))] of a 1-D array, as the list of its rows. *)
Definition reshape_rows (l : list R) (ncols : nat) : result (list (list R)) :=
  if (length l mod ncols =? 0)%nat
  then Ok (map (fun i => firstn ncols (skipn (i * ncols) l)) (seq 0 (length l / ncols)))
  else Raise (ValueError Msg.reshape).

(** ** Python values that reach the parameters [sp] and [bounds] *)

Inductive pyobj : Type :=
| PyNone
| PyInt (z : Z)
| PyBool (b : bool)
| PyFloat (r : R)
| PyStr (s : string).

Inductive py_bounds : Type :=
| BoundsNone
| BoundsTuple (t : list R)
| BoundsOther.   (* any object that is neither None nor a tuple *)

(** Modelled from the spec: [is_int] of [sktime.utils.validation], which is
    not among the two files; the specification asks for "an integer". *)
Definition is_int (o : pyobj) : bool :=
  match o with
  | PyInt _ => true
  | _ => false
  end.

Definition py_is_none (o : pyobj) : bool :=
  match o with
  | PyNone => true
  | _ => false
  end.

(** [o < n]; the source evaluates it for integers only, behind [is_int]. *)
Definition py_lt (o : pyobj) (n : Z) : bool :=
  match o with
  | PyInt z => (z <? n)%Z
  | PyBool b => ((if b then 1 else 0) <? n)%Z
  | PyFloat r => if Rlt_dec r (IZR n) then true else false
  | _ => false
  end.

(** The integer as a length or a count ([%], [reshape]). *)
Definition py_index (o : pyobj) : nat :=
  match o with
  | PyInt z => Z.to_nat z
  | _ => 0%nat
  end.

Definition default_brack : R * R := (-2, 2).

(** The scalar objective handed to a minimizer may raise. *)
Definition objective : Type := R -> result R.
Definition optimizer : Type := objective -> result R.

(** The output of [_boxcox]: the array alone, or with the fitted lambda, or
    with the confidence interval as well. *)
Inductive boxcox_out : Type :=
| Transformed (y : ndarray)
| WithLambda (y : ndarray) (lmax : lambda_value)
| WithInterval (y : ndarray) (lmax : lambda_value) (interval : R * R).

(** A [pd.Series]: an index and the values. *)
Record Series : Type := mk_Series { index : list Z; values : list R }.

Definition to_numpy (z : Series) : ndarray := np_asarray (values z).

(** *** External collaborators

    The scipy functions the module imports, and sktime's series validator
    (which lives outside the two files). *)
Class SciPy : Type := {
  optimize_brent : objective -> R * R -> result R;
  optimize_fminbound : objective -> R -> R -> result R;
  boxcox_llf : R -> ndarray -> R;
  _calc_uniform_order_statistic_medians : nat -> list R;
  norm_ppf : list R -> list R;
  np_sort : list R -> list R;
  stats_pearsonr : list R -> list R -> result (R * R);
  _boxcox_conf_interval : ndarray -> lambda_value -> R -> R * R
}.

Class Validation : Type := {
  check_series : Series -> result Series
}.

Section BoxCox.

Context {scipy : SciPy}.

Definition _make_boxcox_optimizer (bounds : py_bounds) (brack : R * R)
  : result optimizer :=
  match bounds with
  | BoundsNone => Ok (fun func => optimize_brent func brack)
  | BoundsTuple [lo; hi] => Ok (fun func => optimize_fminbound func lo hi)
  | _ => Raise (ValueError Msg.bounds_tuple)
  end.

(** The guards of [_boxcox], in the order of the source; [passthrough] is
    the early [return x] and [k] the rest of the body. *)
Definition _boxcox_checked {A : Type} (x : ndarray)
    (passthrough : ndarray -> A) (k : ndarray -> result A) : result A :=
  if negb (ndim x =? 1)%nat then Raise (ValueError Msg.one_dimensional)
  else if (size x =? 0)%nat then Ok (passthrough x)
  else if np_all_eq x (item0 x) then Raise (ValueError Msg.not_constant)
  else if any_le x 0 then Raise (ValueError Msg.positive)
  else k x.

(** [special.boxcox(x, lmbda)] on a 1-D array. *)
Definition special_boxcox_lv (x : ndarray) (lmbda : lambda_value) : result ndarray :=
  d <- ufunc special_boxcox1 (data x) (Some lmbda) ;;
  Ok {| shape := [length d]; data := d |}.

(** [_boxcox(x, lmbda)] with [lmbda] given: the call that the objective of
    "pearsonr" and the self-fitting path of [_boxcox] itself make. *)
Definition _boxcox_lmbda (x : ndarray) (lmbda : lambda_value) : result ndarray :=
  _boxcox_checked x (fun x => x) (fun x => special_boxcox_lv x lmbda).

(** [len(x)] of an array of one dimension or more. *)
Definition len (x : ndarray) : nat := hd 0%nat (shape x).

Definition _eval_pearsonr (xvals : list R) (samps : ndarray) : objective :=
  fun lmbda =>
    y <- _boxcox_lmbda samps (LScalar lmbda) ;;
    let yvals := np_sort (data y) in
    rp <- stats_pearsonr xvals yvals ;;
    Ok (1 - fst rp).

Definition _eval_mle (data : ndarray) : objective :=
  fun lmb => Ok (- boxcox_llf lmb data).

Definition _pearsonr (opt : optimizer) (x : ndarray) : result R :=
  let osm_uniform := _calc_uniform_order_statistic_medians (len x) in
  let xvals := norm_ppf osm_uniform in
  opt (_eval_pearsonr xvals x).

Definition _mle (opt : optimizer) (x : ndarray) : result R :=
  opt (_eval_mle x).

Definition _all (opt : optimizer) (x : ndarray) : result (list R) :=
  let maxlog := [0; 0] in
  p <- _pearsonr opt x ;;
  let maxlog := p :: tl maxlog in
  m <- _mle opt x ;;
  let maxlog := hd 0 maxlog :: [m] in
  Ok maxlog.

Definition _boxcox_normmax (x : ndarray) (bounds : py_bounds) (brack : R * R)
    (method : string) : result lambda_value :=
  opt <- _make_boxcox_optimizer bounds brack ;;
  if String.eqb method "pearsonr" then l <- _pearsonr opt x ;; Ok (LScalar l)
  else if String.eqb method "mle" then l <- _mle opt x ;; Ok (LScalar l)
  else if String.eqb method "all" then v <- _all opt x ;; Ok (LVector v)
  else Raise (ValueError (Msg.method_unknown method)).

(** [x_mean ** (1 - lmb)] is [Rpower], the power of a positive base, and
    [variation] divides by the mean of the ratios: the definition follows
    numpy where the block means are positive and the mean of the ratios is
    not zero; elsewhere numpy answers nan, which is outside the model. *)
Definition _eval_guerrero (x_std x_mean : list R) : objective :=
  fun lmb =>
    let x_ratio :=
      map (fun p => fst p / Rpower (snd p) (1 - lmb)) (combine x_std x_mean) in
    Ok (variation x_ratio).

Definition _guerrero (x : ndarray) (sp : pyobj) (bounds : py_bounds) : result R :=
  if py_is_none sp || negb (is_int sp) || py_lt sp 2
  then Raise (ValueError Msg.guerrero_sp)
  else
    let sp := py_index sp in
    if negb (ndim x =? 1)%nat then Raise (ValueError Msg.one_dimensional)
    else
      let num_obs := len x in
      let len_prefix := (num_obs mod sp)%nat in
      let x_trimmed := skipn len_prefix (data x) in
      x_mat <- reshape_rows x_trimmed sp ;;
      let x_mean := map np_mean x_mat in
      let x_std := map (np_std 1) x_mat in
      opt <- _make_boxcox_optimizer bounds default_brack ;;
      opt (_eval_guerrero x_std x_mean).

Definition _boxcox (x : ndarray) (lmbda : option lambda_value)
    (bounds : py_bounds) (alpha : option R) : result boxcox_out :=
  _boxcox_checked x Transformed (fun x =>
    match lmbda with
    | Some l => y <- special_boxcox_lv x l ;; Ok (Transformed y)
    | None =>
        lmax <- _boxcox_normmax x bounds default_brack "mle" ;;
        y <- _boxcox_lmbda x lmax ;;
        match alpha with
        | None => Ok (WithLambda y lmax)
        | Some a =>
            let interval := _boxcox_conf_interval x lmax a in
            Ok (WithInterval y lmax interval)
        end
    end).

End BoxCox.

(** ** The transformer class *)

Module BoxCoxTransformer.

(** The instance attributes.  [_is_fitted] is the flag of the base class
    behind [check_is_fitted]. *)
Record t : Type := mk {
  bounds : py_bounds;
  method : string;
  lambda_ : option lambda_value;
  sp : pyobj;
  _is_fitted : bool
}.

Definition __init__ (bounds : py_bounds) (method : string) (sp : pyobj) : t :=
  {| bounds := bounds; method := method; lambda_ := None; sp := sp;
     _is_fitted := false |}.

(** Modelled from the spec: [check_is_fitted] of the base class, which is
    not among the two files ("Requires prior fit (fails with
    NotFittedError otherwise)"). *)
Definition check_is_fitted (self : t) : result unit :=
  if _is_fitted self then Ok tt else Raise (NotFittedError Msg.not_fitted).

(** [pd.Series(zt, index=z.index)] *)
Definition pd_Series (zt : list R) (idx : list Z) : result Series :=
  if (length zt =? length idx)%nat then Ok {| index := idx; values := zt |}
  else Raise (ValueError Msg.series_length).

Section Methods.

Context {scipy : SciPy} {validation : Validation}.

Definition _fit (self : t) (Z : Series) : result t :=
  z <- check_series Z ;;
  lam <-
    (if negb (String.eqb (method self) "guerrero")
     then _boxcox_normmax (to_numpy z) (bounds self) default_brack (method self)
     else l <- _guerrero (to_numpy z) (sp self) (bounds self) ;; Ok (LScalar l)) ;;
  Ok {| bounds := bounds self; method := method self; lambda_ := Some lam;
        sp := sp self; _is_fitted := _is_fitted self |}.

(** Modelled from the spec: [fit] of the base class, which is not among
    the two files ("Unfit -> (EstimateLambda succeeds) -> Fit"). *)
Definition fit (self : t) (Z : Series) : result t :=
  self' <- _fit self Z ;;
  Ok {| bounds := bounds self'; method := method self';
        lambda_ := lambda_ self'; sp := sp self'; _is_fitted := true |}.

Definition _transform (self : t) (Z : Series) : result Series :=
  z <- check_series Z ;;
  zt <- ufunc special_boxcox1 (data (to_numpy z)) (lambda_ self) ;;
  pd_Series zt (index z).

Definition inverse_transform (self : t) (Z : Series) : result Series :=
  _ <- check_is_fitted self ;;
  z <- check_series Z ;;
  zt <- ufunc special_inv_boxcox1 (data (to_numpy z)) (lambda_ self) ;;
  pd_Series zt (index z).

End Methods.

End BoxCoxTransformer.

(** ** The logarithm transformer *)

(** [np.log(Z)] and [np.exp(Z)] on a series: elementwise, same index. *)
Definition np_log (z : Series) : Series :=
  {| index := index z; values := map ln (values z) |}.

Definition np_exp (z : Series) : Series :=
  {| index := index z; values := map exp (values z) |}.

Module LogTransformer.

Record t : Type := mk { _is_fitted : bool }.

(** Modelled from the spec: [check_is_fitted] of the base class, which is
    not among the two files. *)
Definition check_is_fitted (self : t) : result unit :=
  if _is_fitted self then Ok tt else Raise (NotFittedError Msg.not_fitted).

Section Methods.

Context {validation : Validation}.

(** On a [pd.Series], [check_series(Z)] and
    [check_series(Z, enforce_univariate=True)] are the same check. *)
Definition transform (self : t) (Z : Series) : result Series :=
  _ <- check_is_fitted self ;;
  Z <- check_series Z ;;
  Ok (np_log Z).

Definition inverse_transform (self : t) (Z : Series) : result Series :=
  _ <- check_is_fitted self ;;
  Z <- check_series Z ;;
  Ok (np_exp Z).

End Methods.

End LogTransformer.

(** ** Time series forest regressor *)

(** A 2-D array (instances by columns) and a 3-D panel (instances by
    variables by time points), with the shape numpy keeps beside the cells. *)
Record matrix : Type := mk_matrix { nrows : nat; ncols : nat; rows : list (list R) }.
Record panel : Type :=
  mk_panel { n_instances : nat; n_variables : nat; n_timepoints : nat;
             cells : list (list (list R)) }.

Definition IntervalSet : Type := list (nat * nat).

(** [X.squeeze(1)] *)
Definition squeeze1 (X : panel) : result matrix :=
  if (n_variables X =? 1)%nat
  then Ok {| nrows := n_instances X; ncols := n_timepoints X;
             rows := map (fun inst => concat inst) (cells X) |}
  else Raise (ValueError Msg.squeeze).

(** What [np.mean(y_pred, axis=0)] returns: [nan] for an empty list of
    member predictions, one value per instance otherwise. *)
Inductive prediction : Type :=
| Nan
| Values (v : list R).

Fixpoint zip_add (a b : list R) : list R :=
  match a, b with
  | x :: a', y :: b' => (x + y) :: zip_add a' b'
  | _, _ => []
  end.

(** [np.mean(ys, axis=0)]: the rows are added up and the sum is divided by
    their number. *)
Definition np_mean_axis0 (ys : list (list R)) : result prediction :=
  match ys with
  | [] => Ok Nan
  | y0 :: rest =>
      if forallb (fun y => (length y =? length y0)%nat) rest
      then Ok (Values (map (fun s => s / INR (length ys)) (fold_left zip_add rest y0)))
      else Raise (ValueError Msg.inhomogeneous)
  end.

(** [l[i]] of a Python list. *)
Definition py_getitem {A : Type} (l : list A) (i : nat) : result A :=
  match nth_error l i with
  | Some a => Ok a
  | None => Raise (IndexError Msg.list_index)
  end.

Fixpoint sequence {A : Type} (l : list (result A)) : result (list A) :=
  match l with
  | [] => Ok []
  | c :: l' => a <- c ;; r <- sequence l' ;; Ok (a :: r)
  end.

(** [joblib.Parallel]: the tasks are pure; they are evaluated in the order
    of [schedule] (the scheduler's choice), the first one that raises
    aborts the call, and the results come back in the order of the tasks.
    The first component is the trace of the tasks evaluated. *)
Fixpoint Parallel {A : Type} (schedule : list nat) (tasks : list (result A))
  : list nat * result (list A) :=
  match schedule with
  | [] => ([], sequence tasks)
  | i :: rest =>
      match nth_error tasks i with
      | Some (Raise e) => ([i], Raise e)
      | _ => let (tr, r) := Parallel rest tasks in (i :: tr, r)
      end
  end.

(** The tree learner of scikit-learn, and the functions of sktime that
    live outside the two files. *)
Class ForestDeps : Type := {
  RawPanel : Type;
  DecisionTreeRegressor : Type;
  tree_predict : DecisionTreeRegressor -> matrix -> result (list R);
  _transform : matrix -> IntervalSet -> matrix;
  check_X : RawPanel -> result panel
}.

Section Forest.

Context {deps : ForestDeps}.

Definition _predict (X : matrix) (estimator : DecisionTreeRegressor)
    (intervals : IntervalSet) : result (list R) :=
  let Xt := _transform X intervals in
  tree_predict estimator Xt.

End Forest.

Module TimeSeriesForestRegressor.

Section Methods.

Context {deps : ForestDeps}.

Record t : Type := mk {
  n_estimators : nat;
  n_jobs : Z;
  series_length : nat;
  estimators_ : list DecisionTreeRegressor;
  intervals_ : list IntervalSet;
  _is_fitted : bool
}.

(** Modelled from the spec: [check_is_fitted] of the base class, which
    is not among the two files ("if called before the estimator holds a
    fitted population, fails with NotFittedError"). *)
Definition check_is_fitted (self : t) : result unit :=
  if _is_fitted self then Ok tt else Raise (NotFittedError Msg.not_fitted).

(** The generator [delayed(_predict)(X, self.estimators_[i],
    self.intervals_[i]) for i in range(self.n_estimators)].  On a list
    shorter than [n_estimators] the IndexError is reported here, ahead of
    every evaluation. *)
Definition tasks (self : t) (X : matrix) : result (list (result (list R))) :=
  sequence
    (map (fun i =>
            e <- py_getitem (estimators_ self) i ;;
            iv <- py_getitem (intervals_ self) i ;;
            Ok (_predict X e iv))
         (seq 0 (n_estimators self))).

(** [predict], with the trace of the members evaluated. *)
Definition predict (schedule : list nat) (self : t) (X : RawPanel)
  : list nat * result prediction :=
  match
    (_ <- check_is_fitted self ;;
     X <- check_X X ;;
     X <- squeeze1 X ;;
     let '(_, series_length') := (nrows X, ncols X) in
     if negb (series_length' =? series_length self)%nat
     then Raise (TypeError Msg.time_points)
     else ts <- tasks self X ;; Ok ts)
  with
  | Raise e => ([], Raise e)
  | Ok ts =>
      let (tr, y_pred) := Parallel schedule ts in
      (tr, ys <- y_pred ;; np_mean_axis0 ys)
  end.

End Methods.

End TimeSeriesForestRegressor.

(** ** The vocabulary of the specification *)

(** "all elements equal" *)
Definition all_equal (l : list R) : Prop :=
  forall a b, In a l -> In b l -> a = b.

Definition strictly_positive (l : list R) : Prop := Forall (fun v => 0 < v) l.

Definition has_non_positive (l : list R) : Prop := Exists (fun v => v <= 0) l.

(** The Box-Cox transform and its inverse in the words of the
    specification: [(x^lambda - 1)/lambda] or [ln x], and
    [(lambda z + 1)^(1/lambda)] or [exp z]. *)
Definition boxcox_formula (lmbda x : R) : R :=
  if Req_dec_T lmbda 0 then ln x else (Rpower x lmbda - 1) / lmbda.

Definition inv_boxcox_formula (lmbda z : R) : R :=
  if Req_dec_T lmbda 0 then exp z else Rpower (lmbda * z + 1) (1 / lmbda).

(** A series whose index has one label per value. *)
Definition well_formed (z : Series) : Prop := length (index z) = length (values z).

(** The Guerrero objective in the words of the specification: per block
    the mean and the unbiased standard deviation, and across blocks the
    coefficient of variation (standard deviation over mean) of the ratios
    [std / mean^(1 - lambda)]. *)
Definition total (l : list R) : R := fold_right Rplus 0 l.




(** "consecutive blocks of length n": the first [n] elements, then the
    blocks of the rest. *)
Fixpoint blocks_upto (fuel n : nat) (l : list R) : list (list R) :=
  match fuel, l with
  | S fuel', _ :: _ => firstn n l :: blocks_upto fuel' n (skipn n l)
  | _, _ => []
  end.

Definition consecutive_blocks (n : nat) (l : list R) : list (list R) :=
  blocks_upto (length l) n l.






(** ** The finite range of float64

    A second reading of the two ufuncs, for what exact arithmetic cannot
    show: a float64 is a real number in range, an infinity or nan.  A real
    result of magnitude [2^1024] or more is not representable and becomes
    an infinity; the rounding of results in range is not modelled. *)
Inductive f64 : Type :=
| Fin (r : R)
| PosInf
| NegInf
| NaN.

Definition f64_overflow : R := 2 ^ 1024.

Definition to_f64 (r : R) : f64 :=
  if Rle_dec f64_overflow r then PosInf
  else if Rle_dec r (- f64_overflow) then NegInf
  else Fin r.

(** [log], [expm1], [log1p] and [exp] of the C library. *)
Definition f64_log (v : f64) : f64 :=
  match v with
  | Fin r => if Rlt_dec 0 r then to_f64 (ln r)
             else if Req_dec_T r 0 then NegInf else NaN
  | PosInf => PosInf
  | _ => NaN
  end.

Definition f64_expm1 (v : f64) : f64 :=
  match v with
  | Fin r => to_f64 (exp r - 1)
  | PosInf => PosInf
  | NegInf => Fin (-1)
  | NaN => NaN
  end.

Definition f64_log1p (v : f64) : f64 :=
  match v with
  | Fin r => if Rlt_dec (-1) r then to_f64 (ln (1 + r))
             else if Req_dec_T r (-1) then NegInf else NaN
  | PosInf => PosInf
  | _ => NaN
  end.

Definition f64_exp (v : f64) : f64 :=
  match v with
  | Fin r => to_f64 (exp r)
  | PosInf => PosInf
  | NegInf => Fin 0
  | NaN => NaN
  end.

(** [c * v] and [v / c] for a finite, non-zero [c]. *)
Definition f64_scale (c : R) (v : f64) : f64 :=
  match v with
  | Fin r => to_f64 (c * r)
  | PosInf => if Rlt_dec 0 c then PosInf else NegInf
  | NegInf => if Rlt_dec 0 c then NegInf else PosInf
  | NaN => NaN
  end.

Definition f64_unscale (v : f64) (c : R) : f64 :=
  match v with
  | Fin r => to_f64 (r / c)
  | PosInf => if Rlt_dec 0 c then PosInf else NegInf
  | NegInf => if Rlt_dec 0 c then NegInf else PosInf
  | NaN => NaN
  end.

(** The two ufuncs of [scipy.special], on a float64 and a finite lambda. *)
Definition f64_boxcox (x : f64) (lmbda : R) : f64 :=
  if Req_dec_T lmbda 0 then f64_log x
  else f64_unscale (f64_expm1 (f64_scale lmbda (f64_log x))) lmbda.

Definition f64_inv_boxcox (z : f64) (lmbda : R) : f64 :=
  if Req_dec_T lmbda 0 then f64_exp z
  else f64_exp (f64_unscale (f64_log1p (f64_scale lmbda z)) lmbda).

(** The values [inverse_transform] computes from the values [_transform]
    computed, element by element. *)
Definition f64_roundtrip (x : list R) (lmbda : R) : list f64 :=
  map (fun v => f64_inv_boxcox v lmbda) (map (fun v => f64_boxcox (Fin v) lmbda) x).

(** The forest in the words of the specification: its members, what each
    member predicts on a batch, and the arithmetic mean of the member
    predictions for one instance. *)
Definition members {deps : ForestDeps} (self : TimeSeriesForestRegressor.t)
  : list (DecisionTreeRegressor * IntervalSet) :=
  combine (TimeSeriesForestRegressor.estimators_ self)
          (TimeSeriesForestRegressor.intervals_ self).

Definition fitted_forest {deps : ForestDeps} (self : TimeSeriesForestRegressor.t)
  : Prop :=
  TimeSeriesForestRegressor._is_fitted self = true
  /\ length (TimeSeriesForestRegressor.estimators_ self)
     = TimeSeriesForestRegressor.n_estimators self
  /\ length (TimeSeriesForestRegressor.intervals_ self)
     = TimeSeriesForestRegressor.n_estimators self.

(** Every member answers on the batch, with one value per instance. *)
Definition member_predictions {deps : ForestDeps} (X : matrix)
    (self : TimeSeriesForestRegressor.t) (preds : list (list R)) : Prop :=
  Forall2 (fun m p => _predict X (fst m) (snd m) = Ok p /\ length p = nrows X)
          (members self) preds.

Definition instance_mean (preds : list (list R)) (j : nat) : R :=
  total (map (fun p => nth j p 0) preds) / INR (length preds).

(** A [bounds] argument that is neither [None] nor a tuple of length 2. *)
Definition malformed_bounds (bounds : py_bounds) : Prop :=
  match bounds with
  | BoundsNone => False
  | BoundsTuple [_; _] => False
  | _ => True
  end.

(** The method names [_boxcox_normmax] knows. *)
Definition known_method (method : string) : Prop :=
  method = "pearsonr"%string \/ method = "mle"%string \/ method = "all"%string.

(** Data that passes the guards of [_boxcox]. *)
Definition valid_data (x : list R) : Prop :=
  x <> [] /\ strictly_positive x /\ ~ all_equal x.

(** ** Concrete collaborators, for running the model on examples *)

Module Examples.

(** A minimizer that evaluates its objective once, at 0, and answers 0. *)
Definition probe_at_zero : optimizer := fun func => _ <- func 0 ;; Ok 0.

#[export] Instance scipy_probe : SciPy := {|
  optimize_brent := fun func _ => probe_at_zero func;
  optimize_fminbound := fun func _ _ => probe_at_zero func;
  boxcox_llf := fun _ _ => 0;
  _calc_uniform_order_statistic_medians := fun n => repeat (1 / 2) n;
  norm_ppf := fun l => map (fun _ => 0) l;
  np_sort := fun l => l;
  stats_pearsonr := fun _ _ => Ok (0, 1);
  _boxcox_conf_interval := fun _ _ _ => (0, 0)
|}.



(** A validator that accepts every series. *)
#[export] Instance accept_all : Validation := {| check_series := fun z => Ok z |}.

(** Trees that predict one constant for every instance; the panel is
    already a numpy array and the interval transform keeps the rows. *)
#[export] Instance constant_trees : ForestDeps := {|
  RawPanel := panel;
  DecisionTreeRegressor := R;
  tree_predict := fun c Xt => Ok (repeat c (nrows Xt));
  _transform := fun X _ => X;
  check_X := fun X => Ok X
|}.

(** A fitted transformer with a given lambda, and small series. *)
Definition fitted (lmbda : R) : BoxCoxTransformer.t :=
  BoxCoxTransformer.mk BoundsNone "mle" (Some (LScalar lmbda)) PyNone true.

Definition series_1_2 : Series := {| index := [0%Z; 1%Z]; values := [1; 2] |}.

(** A forest of three constant trees, and a batch of two series of
    length two. *)
Definition forest_1_2_3 : TimeSeriesForestRegressor.t :=
  @TimeSeriesForestRegressor.mk constant_trees 3 1 2 [1; 2; 3] [[]; []; []] true.

Definition batch : panel :=
  {| n_instances := 2; n_variables := 1; n_timepoints := 2;
     cells := [[[1; 2]]; [[3; 4]]] |}.

Definition batch_squeezed : matrix :=
  {| nrows := 2; ncols := 2; rows := [[1; 2]; [3; 4]] |}.

(** Trees of which some raise: [None] is a tree whose [predict] fails. *)
Definition failing_trees : ForestDeps := {|
  RawPanel := panel;
  DecisionTreeRegressor := option R;
  tree_predict := fun t Xt =>
    match t with
    | Some c => Ok (repeat c (nrows Xt))
    | None => Raise (ValueError "tree failed")
    end;
  _transform := fun X _ => X;
  check_X := fun X => Ok X
|}.

Definition forest_with_failure : @TimeSeriesForestRegressor.t failing_trees :=
  @TimeSeriesForestRegressor.mk failing_trees 2 1 2 [Some 1; None] [[]; []] true.

End Examples.

(** * Properties *)

(** ** Comparisons of floats *)

Lemma float_eqb_true_iff (a b : R) : float_eqb a b = true <-> a = b.
Proof. unfold float_eqb. destruct (Req_dec_T a b); split; congruence. Qed.

Lemma float_leb_true_iff (a b : R) : float_leb a b = true <-> a <= b.
Proof. unfold float_leb. destruct (Rle_dec a b); split; intros; congruence. Qed.

Lemma float_leb_false_iff (a b : R) : float_leb a b = false <-> b < a.
Proof.
  unfold float_leb. destruct (Rle_dec a b); split; intros; try congruence; lra.
Qed.

Lemma np_all_eq_true_iff (a : ndarray) (s : R) :
  np_all_eq a s = true <-> Forall (fun v => v = s) (data a).
Proof.
  unfold np_all_eq. rewrite forallb_forall, Forall_forall.
  split; intros H v Hv; apply float_eqb_true_iff, H, Hv.
Qed.

Lemma any_le_true_iff (a : ndarray) (s : R) :
  any_le a s = true <-> Exists (fun v => v <= s) (data a).
Proof.
  unfold any_le. rewrite existsb_exists, Exists_exists.
  split; intros [v [Hv H]]; exists v; split; auto; now apply float_leb_true_iff.
Qed.

(** [np.all(x == x[0])] says that all elements are equal. *)
Lemma constant_test_iff (a : ndarray) :
  np_all_eq a (item0 a) = true <-> all_equal (data a).
Proof.
  rewrite np_all_eq_true_iff, Forall_forall. unfold item0, all_equal.
  destruct (data a) as [|x0 l]; simpl.
  - split; intros; contradiction.
  - split.
    + intros H u v Hu Hv. rewrite (H u Hu), (H v Hv). reflexivity.
    + intros H v Hv. apply H; auto.
Qed.

Lemma positive_test_iff (a : ndarray) :
  any_le a 0 = false <-> strictly_positive (data a).
Proof.
  unfold strictly_positive. rewrite Forall_forall. split.
  - intros H v Hv. destruct (Rle_dec v 0) as [Hle|Hgt]; [|lra].
    assert (any_le a 0 = true) as Ht.
    { apply any_le_true_iff, Exists_exists. exists v; auto. }
    congruence.
  - intros H. destruct (any_le a 0) eqn:E; [|reflexivity].
    apply any_le_true_iff, Exists_exists in E. destruct E as [v [Hv Hle]].
    specialize (H v Hv). lra.
Qed.

(** ** The guards of [_boxcox], one by one *)

Section Guards.

Context {A : Type} (x : ndarray) (passthrough : ndarray -> A)
        (k : ndarray -> result A).

Lemma checked_not_1d :
  ndim x <> 1%nat ->
  _boxcox_checked x passthrough k = Raise (ValueError Msg.one_dimensional).
Proof.
  intros H. unfold _boxcox_checked.
  destruct (Nat.eqb_spec (ndim x) 1); [contradiction | reflexivity].
Qed.

Lemma checked_empty :
  ndim x = 1%nat -> size x = 0%nat ->
  _boxcox_checked x passthrough k = Ok (passthrough x).
Proof.
  intros H1 H0. unfold _boxcox_checked. rewrite H1, H0. reflexivity.
Qed.

Lemma checked_constant :
  ndim x = 1%nat -> size x <> 0%nat -> all_equal (data x) ->
  _boxcox_checked x passthrough k = Raise (ValueError Msg.not_constant).
Proof.
  intros H1 H0 Hc. unfold _boxcox_checked. rewrite H1. simpl.
  destruct (Nat.eqb_spec (size x) 0); [contradiction|].
  apply constant_test_iff in Hc. rewrite Hc. reflexivity.
Qed.

Lemma checked_non_positive :
  ndim x = 1%nat -> size x <> 0%nat -> ~ all_equal (data x) ->
  has_non_positive (data x) ->
  _boxcox_checked x passthrough k = Raise (ValueError Msg.positive).
Proof.
  intros H1 H0 Hc Hn. unfold _boxcox_checked. rewrite H1. simpl.
  destruct (Nat.eqb_spec (size x) 0); [contradiction|].
  destruct (np_all_eq x (item0 x)) eqn:E.
  - apply constant_test_iff in E. contradiction.
  - apply any_le_true_iff in Hn. rewrite Hn. reflexivity.
Qed.

Lemma checked_pass :
  ndim x = 1%nat -> size x <> 0%nat -> ~ all_equal (data x) ->
  strictly_positive (data x) ->
  _boxcox_checked x passthrough k = k x.
Proof.
  intros H1 H0 Hc Hp. unfold _boxcox_checked. rewrite H1. simpl.
  destruct (Nat.eqb_spec (size x) 0); [contradiction|].
  destruct (np_all_eq x (item0 x)) eqn:E.
  - apply constant_test_iff in E. contradiction.
  - apply positive_test_iff in Hp. rewrite Hp. reflexivity.
Qed.

End Guards.

Lemma ndim_asarray (l : list R) : ndim (np_asarray l) = 1%nat.
Proof. reflexivity. Qed.

Lemma size_asarray (l : list R) : size (np_asarray l) = length l.
Proof. unfold size, np_asarray. simpl. lia. Qed.

Lemma size_asarray_nonempty (l : list R) : l <> [] -> size (np_asarray l) <> 0%nat.
Proof. rewrite size_asarray. destruct l; simpl; congruence. Qed.

(** ** The formulas of the transform *)

Lemma special_boxcox1_formula (lmbda x : R) :
  special_boxcox1 x lmbda = boxcox_formula lmbda x.
Proof. reflexivity. Qed.

Lemma one_plus_expm1 (lmbda t : R) :
  lmbda <> 0 -> 1 + lmbda * (expm1 t / lmbda) = exp t.
Proof. intros H. unfold expm1. field. exact H. Qed.

(** [inv_boxcox] undoes [boxcox] on a positive number. *)
Lemma inv_boxcox_boxcox (lmbda x : R) :
  0 < x -> special_inv_boxcox1 (special_boxcox1 x lmbda) lmbda = x.
Proof.
  intros Hx. unfold special_inv_boxcox1, special_boxcox1.
  destruct (Req_dec_T lmbda 0) as [E|N].
  - now apply exp_ln.
  - unfold log1p. rewrite one_plus_expm1 by exact N. rewrite ln_exp.
    replace (lmbda * ln x / lmbda) with (ln x) by (field; exact N).
    now apply exp_ln.
Qed.

Lemma special_inv_boxcox1_formula (lmbda z : R) :
  special_inv_boxcox1 z lmbda = inv_boxcox_formula lmbda z.
Proof.
  unfold special_inv_boxcox1, inv_boxcox_formula, log1p, Rpower.
  destruct (Req_dec_T lmbda 0); [reflexivity|].
  f_equal. rewrite (Rplus_comm 1). unfold Rdiv. rewrite Rmult_1_l. apply Rmult_comm.
Qed.

Lemma map_inv_boxcox_boxcox (lmbda : R) (l : list R) :
  strictly_positive l ->
  map (fun v => special_inv_boxcox1 v lmbda) (map (fun v => special_boxcox1 v lmbda) l) = l.
Proof.
  induction 1 as [|v l Hv Hl IH]; simpl; [reflexivity|].
  rewrite inv_boxcox_boxcox by exact Hv. now rewrite IH.
Qed.

(** ** Box-Cox: the transform and its inverse *)

Section TransformProperties.

Context {scipy : SciPy} {validation : Validation}.

Import BoxCoxTransformer.

Lemma boxcox_given_lambda (x : list R) (lmbda : R) (bounds : py_bounds)
    (alpha : option R) :
  x <> [] -> strictly_positive x -> ~ all_equal x ->
  _boxcox (np_asarray x) (Some (LScalar lmbda)) bounds alpha
  = Ok (Transformed (np_asarray (map (fun v => special_boxcox1 v lmbda) x))).
Proof.
  intros Hne Hpos Hnc. unfold _boxcox.
  rewrite checked_pass; [reflexivity | ..];
    auto using ndim_asarray, size_asarray_nonempty.
Qed.

Lemma transform_given_lambda (self : t) (Z : Series) (lmbda : R) :
  lambda_ self = Some (LScalar lmbda) ->
  check_series Z = Ok Z -> well_formed Z ->
  _transform self Z
  = Ok {| index := index Z; values := map (fun v => special_boxcox1 v lmbda) (values Z) |}.
Proof.
  intros Hl Hc Hw. unfold _transform. rewrite Hc, Hl. simpl.
  unfold pd_Series. rewrite length_map.
  unfold well_formed in Hw. rewrite <- Hw, Nat.eqb_refl. reflexivity.
Qed.

(** C1: on a 1-D, non-empty, strictly positive, non-constant sequence and
    a lambda, the transform (the method [_transform] of the transformer
    and the function [_boxcox] alike) returns, element by element,
    [(x^lambda - 1)/lambda] when lambda is not zero and [ln x] when it
    is. *)
Theorem transform_elementwise (self : t) (Z : Series) (lmbda : R)
    (bounds : py_bounds) (alpha : option R) :
  lambda_ self = Some (LScalar lmbda) ->
  check_series Z = Ok Z -> well_formed Z ->
  values Z <> [] -> strictly_positive (values Z) -> ~ all_equal (values Z) ->
  _transform self Z
  = Ok {| index := index Z; values := map (boxcox_formula lmbda) (values Z) |}
  /\ _boxcox (to_numpy Z) (Some (LScalar lmbda)) bounds alpha
     = Ok (Transformed (np_asarray (map (boxcox_formula lmbda) (values Z))))
  /\ (lmbda <> 0 ->
      map (boxcox_formula lmbda) (values Z)
      = map (fun x => (Rpower x lmbda - 1) / lmbda) (values Z))
  /\ (lmbda = 0 -> map (boxcox_formula lmbda) (values Z) = map ln (values Z)).
Proof.
  intros Hl Hc Hw Hne Hpos Hnc. split; [|split; [|split]].
  - now apply transform_given_lambda.
  - unfold to_numpy. now apply boxcox_given_lambda.
  - intros N. apply map_ext. intros x. unfold boxcox_formula.
    destruct (Req_dec_T lmbda 0); [contradiction | reflexivity].
  - intros E. apply map_ext. intros x. unfold boxcox_formula.
    destruct (Req_dec_T lmbda 0); [reflexivity | contradiction].
Qed.

(** C2, amended: in exact real arithmetic (no rounding, no overflow), on a
    strictly positive, non-constant sequence, [inverse_transform] applied
    to the outcome of the transform with the same lambda gives the sequence
    back. *)
Theorem inverse_transform_roundtrip (self : t) (Z : Series) (lmbda : R)
    (bounds : py_bounds) (alpha : option R) :
  _is_fitted self = true ->
  lambda_ self = Some (LScalar lmbda) ->
  check_series Z = Ok Z -> well_formed Z ->
  (forall Zt, _transform self Z = Ok Zt -> check_series Zt = Ok Zt) ->
  values Z <> [] -> strictly_positive (values Z) -> ~ all_equal (values Z) ->
  (exists Zt, _transform self Z = Ok Zt /\ inverse_transform self Zt = Ok Z)
  /\ (exists y,
        _boxcox (to_numpy Z) (Some (LScalar lmbda)) bounds alpha = Ok (Transformed y)
        /\ ufunc special_inv_boxcox1 (data y) (Some (LScalar lmbda)) = Ok (values Z)).
Proof.
  intros Hf Hl Hc Hw Hct Hne Hpos Hnc. split.
  - pose proof (transform_given_lambda self Z lmbda Hl Hc Hw) as Ht.
    eexists. split; [exact Ht|].
    unfold inverse_transform, check_is_fitted. rewrite Hf. simpl.
    rewrite (Hct _ Ht), Hl. simpl.
    rewrite map_inv_boxcox_boxcox by exact Hpos.
    unfold pd_Series. unfold well_formed in Hw. rewrite <- Hw, Nat.eqb_refl.
    destruct Z; reflexivity.
  - eexists. split.
    + unfold to_numpy. now apply boxcox_given_lambda.
    + simpl. now rewrite map_inv_boxcox_boxcox.
Qed.

End TransformProperties.

Lemma not_all_equal_1_2 : ~ all_equal [1; 2].
Proof.
  intros H. specialize (H 1 2 (or_introl eq_refl) (or_intror (or_introl eq_refl))). lra.
Qed.

Lemma strictly_positive_1_2 : strictly_positive [1; 2].
Proof. repeat constructor; lra. Qed.

Lemma transform_elementwise_witness :
  @BoxCoxTransformer._transform Examples.accept_all
    (Examples.fitted 2) Examples.series_1_2
  = Ok {| index := [0%Z; 1%Z]; values := map (boxcox_formula 2) [1; 2] |}.
Proof.
  refine (proj1 (@transform_elementwise Examples.scipy_probe Examples.accept_all
                   (Examples.fitted 2) Examples.series_1_2 2 BoundsNone None
                   _ _ _ _ _ _)).
  - reflexivity.
  - reflexivity.
  - reflexivity.
  - discriminate.
  - exact strictly_positive_1_2.
  - exact not_all_equal_1_2.
Defined.

Lemma inverse_transform_roundtrip_witness :
  exists Zt,
    @BoxCoxTransformer._transform Examples.accept_all
      (Examples.fitted 2) Examples.series_1_2 = Ok Zt
    /\ @BoxCoxTransformer.inverse_transform Examples.accept_all
         (Examples.fitted 2) Zt = Ok Examples.series_1_2.
Proof.
  refine (proj1 (@inverse_transform_roundtrip Examples.scipy_probe
                   Examples.accept_all (Examples.fitted 2) Examples.series_1_2
                   2 BoundsNone None _ _ _ _ _ _ _ _)).
  - reflexivity.
  - reflexivity.
  - reflexivity.
  - reflexivity.
  - reflexivity.
  - discriminate.
  - exact strictly_positive_1_2.
  - exact not_all_equal_1_2.
Defined.

(** ** Box-Cox: rejected inputs and the order of the guards *)

Lemma all_equal_repeat (c : R) (n : nat) : all_equal (repeat c n).
Proof.
  intros a b Ha Hb. apply repeat_spec in Ha, Hb. congruence.
Qed.

Lemma has_non_positive_nonempty (l : list R) : has_non_positive l -> l <> [].
Proof. intros H E. subst. inversion H. Qed.

Section RejectedInputs.

Context {scipy : SciPy}.

(** C10: the guards of [_boxcox] apply in the order dimensionality, empty
    passthrough, constancy, positivity.  An array that is not 1-D is
    refused whatever it holds; an empty 1-D array comes back unchanged; a
    non-empty constant array raises the constant-data error also when its
    value is not positive; the positivity error is left for arrays that
    are not constant. *)
Theorem guard_order (x : ndarray) (lmbda : option lambda_value)
    (bounds : py_bounds) (alpha : option R) :
  (ndim x <> 1%nat ->
   fails_with (_boxcox x lmbda bounds alpha) ShapeError)
  /\ (ndim x = 1%nat -> size x = 0%nat ->
      _boxcox x lmbda bounds alpha = Ok (Transformed x))
  /\ (ndim x = 1%nat -> size x <> 0%nat -> all_equal (data x) ->
      fails_with (_boxcox x lmbda bounds alpha) DegenerateInputError
      /\ ~ fails_with (_boxcox x lmbda bounds alpha) DomainError)
  /\ (ndim x = 1%nat -> size x <> 0%nat -> ~ all_equal (data x) ->
      has_non_positive (data x) ->
      fails_with (_boxcox x lmbda bounds alpha) DomainError).
Proof.
  unfold _boxcox. split; [|split; [|split]].
  - intros H. rewrite checked_not_1d by exact H. eexists. split; reflexivity.
  - intros H1 H0. now apply checked_empty.
  - intros H1 H0 Hc. rewrite checked_constant by assumption. split.
    + eexists. split; reflexivity.
    + intros [e [E K]]. inversion E; subst e. discriminate K.
  - intros H1 H0 Hc Hn. rewrite checked_non_positive by assumption.
    eexists. split; reflexivity.
Qed.

End RejectedInputs.

(** The method [_transform] of the transformer hands the values to
    [scipy.special.boxcox] as they are; the guards of [_boxcox] are not on
    its path. *)
Remark transform_method_is_unguarded :
  @BoxCoxTransformer._transform Examples.accept_all (Examples.fitted 1)
    {| index := [0; 1; 2; 3]%Z; values := [5; 5; 5; 5] |}
  = Ok {| index := [0; 1; 2; 3]%Z; values := [4; 4; 4; 4] |}.
Proof.
  assert (special_boxcox1 5 1 = 4) as E.
  { unfold special_boxcox1, expm1. destruct (Req_dec_T 1 0) as [H|_]; [lra|].
    rewrite Rmult_1_l, exp_ln by lra. field. }
  unfold BoxCoxTransformer._transform. simpl. now rewrite E.
Qed.

Lemma has_non_positive_1_m2_3 : has_non_positive [1; -2; 3].
Proof. right. left. lra. Qed.

Lemma not_all_equal_1_m2_3 : ~ all_equal [1; -2; 3].
Proof.
  intros H. specialize (H 1 (-2) (or_introl eq_refl) (or_intror (or_introl eq_refl))). lra.
Qed.

(** The sequence [-3, -3, -3] contains a non-positive element, and the
    transform does not fail with the positivity error on it: the constancy
    guard comes first. *)
Lemma constant_non_positive_counterexample :
  has_non_positive [-3; -3; -3]
  /\ @_boxcox Examples.scipy_probe (np_asarray [-3; -3; -3]) (Some (LScalar 1))
       BoundsNone None
     = Raise (ValueError Msg.not_constant)
  /\ ~ fails_with
         (@_boxcox Examples.scipy_probe (np_asarray [-3; -3; -3])
            (Some (LScalar 1)) BoundsNone None)
         DomainError.
Proof.
  assert (@_boxcox Examples.scipy_probe (np_asarray [-3; -3; -3])
            (Some (LScalar 1)) BoundsNone None
          = Raise (ValueError Msg.not_constant)) as E.
  { unfold _boxcox. apply checked_constant.
    - reflexivity.
    - apply size_asarray_nonempty. discriminate.
    - exact (all_equal_repeat (-3) 3). }
  split; [left; lra|]. split; [exact E|].
  rewrite E. intros [e [H K]]. inversion H; subst e. discriminate K.
Qed.

Lemma guard_order_witness :
  fails_with
    (@_boxcox Examples.scipy_probe (np_asarray [-3; -3; -3]) (Some (LScalar 1))
       BoundsNone None)
    DegenerateInputError
  /\ @_boxcox Examples.scipy_probe (np_asarray []) (Some (LScalar 1))
       BoundsNone None
     = Ok (Transformed (np_asarray []))
  /\ fails_with
       (@_boxcox Examples.scipy_probe {| shape := [1; 2]%nat; data := [-3; -3] |}
          (Some (LScalar 1)) BoundsNone None)
       ShapeError.
Proof.
  split; [|split].
  - refine (proj1 (proj1 (proj2 (proj2 (@guard_order Examples.scipy_probe
              (np_asarray [-3; -3; -3]) (Some (LScalar 1)) BoundsNone None)))
              _ _ _)).
    + reflexivity.
    + apply size_asarray_nonempty. discriminate.
    + exact (all_equal_repeat (-3) 3).
  - refine (proj1 (proj2 (@guard_order Examples.scipy_probe
              (np_asarray []) (Some (LScalar 1)) BoundsNone None)) _ _);
      reflexivity.
  - refine (proj1 (@guard_order Examples.scipy_probe
              {| shape := [1; 2]%nat; data := [-3; -3] |}
              (Some (LScalar 1)) BoundsNone None) _).
    simpl. discriminate.
Defined.

(** ** Guerrero: trimming, blocks and the objective *)

Lemma fold_left_Rplus_total (l : list R) (a : R) :
  fold_left Rplus l a = a + total l.
Proof.
  revert a. induction l as [|x l IH]; intros a; simpl.
  - lra.
  - rewrite IH. lra.
Qed.

Lemma np_sum_total (l : list R) : np_sum l = total l.
Proof. unfold np_sum. rewrite fold_left_Rplus_total. lra. Qed.





(** [reshape((-1, n))]: the rows are consecutive slices of length [n]. *)
Lemma concat_slices (n k : nat) (l : list R) :
  length l = (k * n)%nat ->
  concat (map (fun i => firstn n (skipn (i * n) l)) (seq 0 k)) = l.
Proof.
  revert l. induction k as [|k IH]; intros l Hl.
  - simpl in *. now destruct l.
  - cbn [seq map concat]. rewrite <- seq_shift, map_map.
    simpl (0 * n)%nat. simpl (skipn 0 l).
    transitivity (firstn n l ++ skipn n l); [|apply firstn_skipn].
    f_equal. rewrite <- (IH (skipn n l)).
    + f_equal. apply map_ext. intros i. rewrite skipn_skipn.
      f_equal. f_equal. simpl. lia.
    + rewrite length_skipn, Hl. simpl. lia.
Qed.

Lemma slices_length (n k : nat) (l : list R) :
  length l = (k * n)%nat ->
  Forall (fun r => length r = n)
         (map (fun i => firstn n (skipn (i * n) l)) (seq 0 k)).
Proof.
  intros Hl. apply Forall_forall. intros r Hr.
  apply in_map_iff in Hr. destruct Hr as [i [<- Hi]]. apply in_seq in Hi.
  rewrite length_firstn, length_skipn, Hl. nia.
Qed.

Lemma reshape_rows_blocks (l : list R) (n : nat) :
  n <> 0%nat -> (length l mod n = 0)%nat ->
  exists blocks,
    reshape_rows l n = Ok blocks
    /\ concat blocks = l
    /\ Forall (fun b => length b = n) blocks
    /\ length blocks = (length l / n)%nat.
Proof.
  intros Hn Hm. unfold reshape_rows. rewrite Hm. simpl.
  assert (length l = (length l / n * n)%nat) as Hl.
  { pose proof (Nat.div_mod_eq (length l) n). lia. }
  eexists. split; [reflexivity|]. split; [|split].
  - now apply concat_slices.
  - now apply slices_length.
  - now rewrite length_map, length_seq.
Qed.

Lemma trimmed_length (l : list R) (n : nat) :
  n <> 0%nat -> (length (skipn (length l mod n) l) mod n = 0)%nat.
Proof.
  intros Hn. rewrite length_skipn.
  pose proof (Nat.div_mod_eq (length l) n) as H.
  replace (length l - length l mod n)%nat with (length l / n * n)%nat by lia.
  now apply Nat.Div0.mod_mul.
Qed.


Lemma slices_blocks (n k fuel : nat) (l : list R) :
  n <> 0%nat -> length l = (k * n)%nat -> (k <= fuel)%nat ->
  map (fun i => firstn n (skipn (i * n) l)) (seq 0 k) = blocks_upto fuel n l.
Proof.
  intros Hn. revert fuel l. induction k as [|k IH]; intros fuel l Hl Hf.
  - destruct l; [|discriminate]. now destruct fuel.
  - destruct fuel as [|fuel]; [lia|].
    destruct l as [|a l]; [simpl in Hl; lia|].
    cbn [seq map blocks_upto]. f_equal.
    rewrite <- seq_shift, map_map.
    rewrite <- (IH fuel (skipn n (a :: l))).
    + apply map_ext. intros i. rewrite skipn_skipn.
      f_equal. f_equal. simpl. lia.
    + rewrite length_skipn, Hl. simpl. lia.
    + lia.
Qed.

Lemma reshape_rows_consecutive (l : list R) (n : nat) :
  n <> 0%nat -> (length l mod n = 0)%nat ->
  reshape_rows l n = Ok (consecutive_blocks n l).
Proof.
  intros Hn Hm. unfold reshape_rows, consecutive_blocks. rewrite Hm. simpl.
  f_equal. apply slices_blocks; [exact Hn | |].
  - pose proof (Nat.div_mod_eq (length l) n). lia.
  - apply Nat.Div0.div_le_upper_bound. nia.
Qed.


(** ** Guerrero: the seasonal period *)

Section GuerreroValidation.

Context {scipy : SciPy} {validation : Validation}.

(** C8: whatever the sequence, the Guerrero method called with a seasonal
    period that is missing ([None]), not an integer, or an integer below 2
    raises the ValueError on [sp], the InvalidParameter of the
    specification; so does fitting a transformer whose method is
    "guerrero" on a series the validator accepts. *)
Theorem guerrero_invalid_sp (x : ndarray) (sp : pyobj) (bounds : py_bounds) :
  sp = PyNone \/ is_int sp = false \/ (exists z, sp = PyInt z /\ (z < 2)%Z) ->
  _guerrero x sp bounds = Raise (ValueError Msg.guerrero_sp)
  /\ fails_with (_guerrero x sp bounds) InvalidParameter
  /\ (forall (self : BoxCoxTransformer.t) (Z z : Series),
        BoxCoxTransformer.method self = "guerrero"%string ->
        BoxCoxTransformer.sp self = sp ->
        BoxCoxTransformer.bounds self = bounds ->
        check_series Z = Ok z -> to_numpy z = x ->
        fails_with (BoxCoxTransformer._fit self Z) InvalidParameter).
Proof.
  intros H.
  assert (_guerrero x sp bounds = Raise (ValueError Msg.guerrero_sp)) as E.
  { unfold _guerrero. destruct H as [-> | [H | [z [-> H]]]].
    - reflexivity.
    - rewrite H. simpl. now rewrite orb_true_r.
    - simpl. destruct (Z.ltb_spec z 2); [reflexivity | lia]. }
  split; [exact E|]. split.
  - rewrite E. eexists. split; reflexivity.
  - intros self Z z Hm Hs Hb Hc Hx. unfold BoxCoxTransformer._fit.
    rewrite Hc. cbn [bind]. rewrite Hm, Hs, Hb, Hx. simpl negb. cbv iota.
    rewrite E. cbn [bind]. eexists. split; reflexivity.
Qed.

End GuerreroValidation.

Lemma guerrero_invalid_sp_witness :
  fails_with (@_guerrero Examples.scipy_probe (np_asarray [1; 2; 3]) (PyInt 1) BoundsNone)
    InvalidParameter
  /\ fails_with (@_guerrero Examples.scipy_probe (np_asarray [1; 2; 3]) PyNone BoundsNone)
       InvalidParameter
  /\ fails_with
       (@_guerrero Examples.scipy_probe (np_asarray [1; 2; 3]) (PyFloat 4) BoundsNone)
       InvalidParameter.
Proof.
  split; [|split].
  - refine (proj1 (proj2 (@guerrero_invalid_sp Examples.scipy_probe Examples.accept_all
              (np_asarray [1; 2; 3]) (PyInt 1) BoundsNone _))).
    right. right. exists 1%Z. split; [reflexivity | lia].
  - refine (proj1 (proj2 (@guerrero_invalid_sp Examples.scipy_probe Examples.accept_all
              (np_asarray [1; 2; 3]) PyNone BoundsNone _))).
    left. reflexivity.
  - refine (proj1 (proj2 (@guerrero_invalid_sp Examples.scipy_probe Examples.accept_all
              (np_asarray [1; 2; 3]) (PyFloat 4) BoundsNone _))).
    right. left. reflexivity.
Defined.

(** ** Method "all" of the lambda search *)

Section NormmaxAll.

Context {scipy : SciPy}.

Lemma normmax_pearsonr (x : ndarray) (bounds : py_bounds) (brack : R * R) :
  _boxcox_normmax x bounds brack "pearsonr"
  = (opt <- _make_boxcox_optimizer bounds brack ;;
     l <- _pearsonr opt x ;; Ok (LScalar l)).
Proof. reflexivity. Qed.

Lemma normmax_mle (x : ndarray) (bounds : py_bounds) (brack : R * R) :
  _boxcox_normmax x bounds brack "mle"
  = (opt <- _make_boxcox_optimizer bounds brack ;;
     l <- _mle opt x ;; Ok (LScalar l)).
Proof. reflexivity. Qed.

Lemma normmax_all (x : ndarray) (bounds : py_bounds) (brack : R * R) :
  _boxcox_normmax x bounds brack "all"
  = (opt <- _make_boxcox_optimizer bounds brack ;;
     p <- _pearsonr opt x ;; m <- _mle opt x ;; Ok (LVector [p; m])).
Proof.
  unfold _boxcox_normmax, _all.
  destruct (_make_boxcox_optimizer bounds brack) as [opt|e]; simpl; [|reflexivity].
  destruct (_pearsonr opt x) as [p|e]; simpl; [|reflexivity].
  destruct (_mle opt x) as [m|e]; reflexivity.
Qed.

(** C5: whenever method "all" returns, it returns a vector of exactly two
    values, the first the result of method "pearsonr" and the second the
    result of method "mle" on the same sequence; and it returns whenever
    those two do. *)
Theorem normmax_all_is_pair (x : ndarray) (bounds : py_bounds) (brack : R * R) :
  (forall v,
      _boxcox_normmax x bounds brack "all" = Ok v ->
      exists p m,
        v = LVector [p; m]
        /\ _boxcox_normmax x bounds brack "pearsonr" = Ok (LScalar p)
        /\ _boxcox_normmax x bounds brack "mle" = Ok (LScalar m))
  /\ (forall p m,
        _boxcox_normmax x bounds brack "pearsonr" = Ok (LScalar p) ->
        _boxcox_normmax x bounds brack "mle" = Ok (LScalar m) ->
        _boxcox_normmax x bounds brack "all" = Ok (LVector [p; m])).
Proof.
  rewrite normmax_all, normmax_pearsonr, normmax_mle.
  destruct (_make_boxcox_optimizer bounds brack) as [opt|e]; simpl.
  - destruct (_pearsonr opt x) as [p|e1]; destruct (_mle opt x) as [m|e2]; simpl;
      split; try discriminate.
    + intros v Hv. injection Hv as <-. exists p, m. auto.
    + intros p' m' Hp Hm. injection Hp as <-. injection Hm as <-. reflexivity.
  - split; discriminate.
Qed.

End NormmaxAll.

Lemma probe_pearsonr_1_2 :
  @_boxcox_normmax Examples.scipy_probe (np_asarray [1; 2]) BoundsNone default_brack
    "pearsonr" = Ok (LScalar 0).
Proof.
  rewrite normmax_pearsonr. simpl. unfold _pearsonr. simpl.
  unfold Examples.probe_at_zero, _eval_pearsonr, _boxcox_lmbda.
  rewrite checked_pass.
  - simpl. reflexivity.
  - reflexivity.
  - apply size_asarray_nonempty. discriminate.
  - exact not_all_equal_1_2.
  - exact strictly_positive_1_2.
Qed.

Lemma normmax_all_is_pair_witness :
  @_boxcox_normmax Examples.scipy_probe (np_asarray [1; 2]) BoundsNone default_brack
    "all" = Ok (LVector [0; 0]).
Proof.
  refine (proj2 (@normmax_all_is_pair Examples.scipy_probe (np_asarray [1; 2])
                   BoundsNone default_brack) 0 0 _ _).
  - exact probe_pearsonr_1_2.
  - reflexivity.
Defined.

(** ** The forest: members, schedule and mean *)

Lemma sequence_map_Ok {A B : Type} (g : A -> B) (l : list A) :
  sequence (map (fun a => Ok (g a)) l) = Ok (map g l).
Proof.
  induction l as [|a l IH]; simpl; [reflexivity|]. now rewrite IH.
Qed.

Lemma sequence_all_Ok {A : Type} (ps : list A) : sequence (map Ok ps) = Ok ps.
Proof.
  rewrite (sequence_map_Ok (fun a => a)). now rewrite map_id.
Qed.

(** When no task raises, [Parallel] evaluates the whole schedule and hands
    back the results in the order of the tasks. *)
Lemma Parallel_all_Ok {A : Type} (schedule : list nat) (ps : list A) :
  Parallel schedule (map Ok ps) = (schedule, Ok ps).
Proof.
  induction schedule as [|i rest IH]; simpl.
  - now rewrite sequence_all_Ok.
  - rewrite IH. rewrite nth_error_map.
    destruct (nth_error ps i); reflexivity.
Qed.

Lemma total_perm (l l' : list R) : Permutation l l' -> total l = total l'.
Proof.
  induction 1 as [|x l l' _ IH|x y l|l l' l'' _ IH1 _ IH2]; simpl.
  - reflexivity.
  - now rewrite IH.
  - lra.
  - congruence.
Qed.

Lemma instance_mean_perm (preds preds' : list (list R)) (j : nat) :
  Permutation preds preds' -> instance_mean preds j = instance_mean preds' j.
Proof.
  intros H. unfold instance_mean.
  rewrite (Permutation_length H).
  now rewrite (total_perm _ _ (Permutation_map (fun p => nth j p 0) H)).
Qed.

Lemma zip_add_length (a b : list R) :
  length a = length b -> length (zip_add a b) = length a.
Proof.
  revert b. induction a as [|x a IH]; intros [|y b] H; simpl in *; try lia.
  now rewrite IH by lia.
Qed.

Lemma zip_add_nth (a b : list R) (j : nat) :
  length a = length b -> nth j (zip_add a b) 0 = nth j a 0 + nth j b 0.
Proof.
  revert b j. induction a as [|x a IH]; intros [|y b] j H; simpl in *; try lia.
  - destruct j; lra.
  - destruct j; [reflexivity|]. apply IH. lia.
Qed.

Lemma list_as_map_nth (a : list R) :
  a = map (fun j => nth j a 0) (seq 0 (length a)).
Proof.
  apply (nth_ext _ _ 0 0).
  - now rewrite length_map, length_seq.
  - intros j Hj. set (f := fun j => nth j a 0).
    rewrite (nth_indep (map f (seq 0 (length a))) 0 (f 0%nat))
      by (rewrite length_map, length_seq; exact Hj).
    rewrite map_nth, seq_nth by exact Hj. reflexivity.
Qed.

(** Adding the rows up gives, per column, the total of the column. *)
Lemma fold_zip_add_columns (m : nat) (rest : list (list R)) (acc : list R) :
  length acc = m -> Forall (fun p => length p = m) rest ->
  fold_left zip_add rest acc
  = map (fun j => total (map (fun p => nth j p 0) (acc :: rest))) (seq 0 m).
Proof.
  intros Ha Hr. revert acc Ha.
  induction Hr as [|r rest Hlen Hrest IH]; intros acc Ha; simpl.
  - rewrite (list_as_map_nth acc) at 1. rewrite Ha.
    apply map_ext. intros j. lra.
  - rewrite IH by (rewrite zip_add_length; lia).
    apply map_ext. intros j. simpl.
    rewrite zip_add_nth by lia. lra.
Qed.

Lemma np_mean_axis0_instance_mean (m : nat) (preds : list (list R)) :
  preds <> [] -> Forall (fun p => length p = m) preds ->
  np_mean_axis0 preds = Ok (Values (map (instance_mean preds) (seq 0 m))).
Proof.
  intros Hne Hall. destruct preds as [|y0 rest]; [contradiction|].
  inversion Hall as [|? ? Hy0 Hrest]; subst.
  unfold np_mean_axis0.
  assert (forallb (fun y => (length y =? length y0)%nat) rest = true) as ->.
  { apply forallb_forall. intros y Hy. apply Nat.eqb_eq.
    rewrite Forall_forall in Hrest. now apply Hrest. }
  rewrite (fold_zip_add_columns (length y0)) by auto.
  rewrite map_map. reflexivity.
Qed.

Lemma generator_members {T I B : Type} (g : T -> I -> B) (est : list T)
    (ivs : list I) (n : nat) :
  length est = n -> length ivs = n ->
  map (fun i => e <- py_getitem est i ;; iv <- py_getitem ivs i ;; Ok (g e iv))
      (seq 0 n)
  = map (fun m => Ok (g (fst m) (snd m))) (combine est ivs).
Proof.
  revert ivs n. induction est as [|e est IH]; intros [|iv ivs] [|n] He Hi;
    simpl in He, Hi; try discriminate; [reflexivity|].
  cbn [seq map combine]. f_equal.
  rewrite <- seq_shift, map_map. apply IH; lia.
Qed.

Section ForestProperties.

Context {deps : ForestDeps}.

Import TimeSeriesForestRegressor.

Lemma member_predictions_shape (X : matrix) (self : t) (preds : list (list R)) :
  member_predictions X self preds ->
  map (fun m => _predict X (fst m) (snd m)) (members self) = map Ok preds
  /\ Forall (fun p => length p = nrows X) preds
  /\ length preds = length (members self).
Proof.
  unfold member_predictions. generalize (members self) as ms.
  intros ms H. induction H as [|m p ms preds [Hp Hl] _ [IH1 [IH2 IH3]]]; simpl.
  - auto.
  - rewrite Hp, IH1, IH3. auto.
Qed.

Lemma tasks_of_fitted (self : t) (X : matrix) (preds : list (list R)) :
  fitted_forest self -> member_predictions X self preds ->
  tasks self X = Ok (map Ok preds).
Proof.
  intros [_ [He Hi]] Hp. unfold tasks.
  rewrite (generator_members (_predict X) _ _ _ He Hi).
  rewrite sequence_map_Ok. f_equal.
  apply (member_predictions_shape X self preds Hp).
Qed.

(** What [predict] does on a fitted forest and a valid batch. *)
Lemma predict_of_fitted (schedule : list nat) (self : t) (X : RawPanel)
    (Xp : panel) (Xm : matrix) (preds : list (list R)) :
  fitted_forest self -> (0 < n_estimators self)%nat ->
  check_X X = Ok Xp -> squeeze1 Xp = Ok Xm -> ncols Xm = series_length self ->
  member_predictions Xm self preds ->
  predict schedule self X
  = (schedule, Ok (Values (map (instance_mean preds) (seq 0 (nrows Xm))))).
Proof.
  intros Hf Hn Hc Hs Hl Hp. unfold predict, check_is_fitted.
  destruct Hf as [Hfit Hlens]. rewrite Hfit. cbn [bind].
  rewrite Hc. cbn [bind]. rewrite Hs. cbn [bind].
  rewrite Hl, Nat.eqb_refl. simpl negb. cbv iota.
  rewrite (tasks_of_fitted self Xm preds (conj Hfit Hlens) Hp). cbn [bind].
  rewrite Parallel_all_Ok. cbn [bind].
  destruct (member_predictions_shape Xm self preds Hp) as [_ [Hall Hlen]].
  rewrite (np_mean_axis0_instance_mean (nrows Xm)); [reflexivity | | exact Hall].
  intros ->. simpl in Hlen. unfold members in Hlen.
  rewrite length_combine in Hlen. destruct Hlens as [He Hi]. lia.
Qed.

End ForestProperties.

Lemma instance_mean_1_2_3 (m j : nat) :
  (j < m)%nat -> instance_mean [repeat 1 m; repeat 2 m; repeat 3 m] j = 2.
Proof.
  intros Hj. unfold instance_mean. simpl.
  rewrite !nth_repeat_lt by exact Hj. lra.
Qed.

Section ForestClaims.

Context {deps : ForestDeps}.

Import TimeSeriesForestRegressor.

(** C4: on a fitted population of n trees and a valid batch, [predict]
    returns for each instance the arithmetic mean of the n member
    predictions for it: every member is counted once, with weight 1/n.
    The outcome depends neither on the order in which the members are
    evaluated nor on the order in which the population lists them.  Three
    constant predictors returning 1, 2 and 3 give 2 for every instance. *)
Theorem predict_is_mean (schedule : list nat) (self : t) (X : RawPanel)
    (Xp : panel) (Xm : matrix) (preds : list (list R)) :
  fitted_forest self -> (0 < n_estimators self)%nat ->
  check_X X = Ok Xp -> squeeze1 Xp = Ok Xm -> ncols Xm = series_length self ->
  member_predictions Xm self preds ->
  length preds = n_estimators self
  /\ snd (predict schedule self X)
     = Ok (Values (map (instance_mean preds) (seq 0 (nrows Xm))))
  /\ (forall j,
        instance_mean preds j
        = total (map (fun p => nth j p 0) preds) / INR (n_estimators self))
  /\ fst (predict schedule self X) = schedule
  /\ (forall schedule',
        snd (predict schedule' self X) = snd (predict schedule self X))
  /\ (forall self' schedule',
        fitted_forest self' ->
        n_estimators self' = n_estimators self ->
        series_length self' = series_length self ->
        Permutation (members self') (members self) ->
        snd (predict schedule' self' X) = snd (predict schedule self X))
  /\ (forall m,
        preds = [repeat 1 m; repeat 2 m; repeat 3 m] ->
        snd (predict schedule self X) = Ok (Values (repeat 2 (nrows Xm)))).
Proof.
  intros Hf Hn Hc Hs Hl Hp.
  pose proof (predict_of_fitted schedule self X Xp Xm preds Hf Hn Hc Hs Hl Hp) as E.
  destruct (member_predictions_shape Xm self preds Hp) as [_ [Hall Hlen]].
  assert (length preds = n_estimators self) as Hcount.
  { rewrite Hlen. unfold members. rewrite length_combine.
    destruct Hf as [_ [He Hi]]. lia. }
  split; [exact Hcount|]. split; [now rewrite E|].
  split; [intros j; unfold instance_mean; now rewrite Hcount|].
  split; [now rewrite E|]. split; [|split].
  - intros schedule'.
    now rewrite E, (predict_of_fitted schedule' self X Xp Xm preds).
  - intros self' schedule' Hf' Hn' Hl' Hperm.
    destruct (Permutation_Forall2 (Permutation_sym Hperm) Hp) as [preds' [Hpp Hp']].
    rewrite E.
    rewrite (predict_of_fitted schedule' self' X Xp Xm preds');
      try assumption; try lia; try congruence.
    simpl. do 2 f_equal. apply map_ext. intros j. symmetry.
    now apply instance_mean_perm.
  - intros m ->. rewrite E. simpl snd. do 2 f_equal.
    assert (m = nrows Xm) as <-.
    { inversion Hall as [|? ? H1 _]; subst. rewrite <- H1. symmetry. apply repeat_length. }
    transitivity (map (fun _ : nat => 2) (seq 0 m)).
    + apply map_ext_in. intros j Hj. apply in_seq in Hj.
      apply instance_mean_1_2_3. lia.
    + now rewrite map_const, length_seq.
Qed.

(** C9: on a fitted forest and a batch whose series length differs from
    the one recorded at training time, [predict] raises the TypeError on
    the number of time points, the ShapeError of the specification, and no
    member has been evaluated. *)
Theorem predict_series_length_mismatch (schedule : list nat) (self : t)
    (X : RawPanel) (Xp : panel) (Xm : matrix) :
  _is_fitted self = true ->
  check_X X = Ok Xp -> squeeze1 Xp = Ok Xm -> ncols Xm <> series_length self ->
  predict schedule self X = ([], Raise (TypeError Msg.time_points))
  /\ fst (predict schedule self X) = []
  /\ fails_with (snd (predict schedule self X)) ShapeError.
Proof.
  intros Hf Hc Hs Hl.
  assert (predict schedule self X = ([], Raise (TypeError Msg.time_points))) as E.
  { unfold predict, check_is_fitted. rewrite Hf. cbn [bind].
    rewrite Hc. cbn [bind]. rewrite Hs. cbn [bind].
    destruct (Nat.eqb_spec (ncols Xm) (series_length self)); [contradiction|].
    reflexivity. }
  split; [exact E|]. rewrite E. split; [reflexivity|].
  eexists. split; reflexivity.
Qed.

End ForestClaims.

Lemma predict_is_mean_witness :
  snd (@TimeSeriesForestRegressor.predict Examples.constant_trees
         [2%nat; 0%nat; 1%nat] Examples.forest_1_2_3 Examples.batch)
  = Ok (Values (repeat 2 2%nat)).
Proof.
  refine (proj2 (proj2 (proj2 (proj2 (proj2 (proj2
            (@predict_is_mean Examples.constant_trees [2%nat; 0%nat; 1%nat]
               Examples.forest_1_2_3 Examples.batch Examples.batch
               Examples.batch_squeezed [repeat 1 2%nat; repeat 2 2%nat; repeat 3 2%nat]
               _ _ _ _ _ _)))))) 2%nat eq_refl).
  - repeat split; reflexivity.
  - simpl. lia.
  - reflexivity.
  - reflexivity.
  - reflexivity.
  - unfold member_predictions. simpl. repeat constructor.
Defined.

Lemma predict_series_length_mismatch_witness :
  @TimeSeriesForestRegressor.predict Examples.constant_trees
    [0%nat; 1%nat; 2%nat]
    (@TimeSeriesForestRegressor.mk Examples.constant_trees 3 1 5 [1; 2; 3]
       [[]; []; []] true)
    Examples.batch
  = ([], Raise (TypeError Msg.time_points)).
Proof.
  refine (proj1 (@predict_series_length_mismatch Examples.constant_trees
                   [0%nat; 1%nat; 2%nat]
                   (@TimeSeriesForestRegressor.mk Examples.constant_trees 3 1 5
                      [1; 2; 3] [[]; []; []] true)
                   Examples.batch Examples.batch Examples.batch_squeezed _ _ _ _)).
  - reflexivity.
  - reflexivity.
  - reflexivity.
  - simpl. lia.
Defined.

(** * Further properties of the code *)

(** ** The [bounds] and [method] arguments *)

Lemma make_optimizer_malformed `{SciPy} (bounds : py_bounds) (brack : R * R) :
  malformed_bounds bounds ->
  _make_boxcox_optimizer bounds brack = Raise (ValueError Msg.bounds_tuple).
Proof.
  destruct bounds as [|[|a [|b [|c t]]]|]; simpl; intros Hb;
    try contradiction; reflexivity.
Qed.

Lemma make_optimizer_well_formed `{SciPy} (bounds : py_bounds) (brack : R * R) :
  ~ malformed_bounds bounds ->
  exists opt, _make_boxcox_optimizer bounds brack = Ok opt.
Proof.
  destruct bounds as [|[|a [|b [|c t]]]|]; simpl; intros Hb;
    try (exfalso; apply Hb; exact I); eexists; reflexivity.
Qed.

Lemma fails_with_bounds_error {A : Type} (c : result A) :
  c = Raise (ValueError Msg.bounds_tuple) -> fails_with c InvalidParameter.
Proof. intros ->. eexists. split; reflexivity. Qed.

(** The Guerrero method on a 1-D array and a valid [sp], unfolded. *)
Lemma guerrero_valid_sp `{SciPy} (x : list R) (z : Z) (bounds : py_bounds) :
  (2 <= z)%Z ->
  _guerrero (np_asarray x) (PyInt z) bounds
  = (let blocks :=
       consecutive_blocks (Z.to_nat z) (skipn (length x mod Z.to_nat z) x) in
     opt <- _make_boxcox_optimizer bounds default_brack ;;
     opt (_eval_guerrero (map (np_std 1) blocks) (map np_mean blocks))).
Proof.
  intros Hz. assert (Z.to_nat z <> 0%nat) as Hsp by lia.
  unfold _guerrero. simpl py_is_none. simpl is_int. simpl py_lt.
  destruct (Z.ltb_spec z 2) as [Hlt|_]; [lia|]. simpl orb. cbv iota.
  simpl py_index. rewrite ndim_asarray. simpl negb. cbv iota.
  change (len (np_asarray x)) with (length x).
  change (data (np_asarray x)) with x.
  rewrite (reshape_rows_consecutive _ _ Hsp (trimmed_length x _ Hsp)).
  reflexivity.
Qed.

Section BoundsAndMethod.

Context {scipy : SciPy} {validation : Validation}.

(** X1: a [bounds] argument that is neither [None] nor a tuple of length 2
    is refused with the ValueError on bounds by every estimation entry
    point: by [_boxcox_normmax] whatever the data and the method (a known
    one or not), by [_guerrero] on a 1-D array with a valid [sp], and by
    the self-fitting path of [_boxcox] on data that passes its guards. *)
Theorem malformed_bounds_rejected (bounds : py_bounds) :
  malformed_bounds bounds ->
  (forall x brack method,
      _boxcox_normmax x bounds brack method = Raise (ValueError Msg.bounds_tuple))
  /\ (forall x z, (2 <= z)%Z ->
        _guerrero (np_asarray x) (PyInt z) bounds = Raise (ValueError Msg.bounds_tuple))
  /\ (forall x alpha, valid_data x ->
        _boxcox (np_asarray x) None bounds alpha = Raise (ValueError Msg.bounds_tuple))
  /\ spec_error_of (ValueError Msg.bounds_tuple) = InvalidParameter.
Proof.
  intros Hb. split; [|split; [|split]].
  - intros x brack method. unfold _boxcox_normmax.
    now rewrite make_optimizer_malformed.
  - intros x z Hz. rewrite guerrero_valid_sp by exact Hz. cbv zeta.
    now rewrite make_optimizer_malformed.
  - intros x alpha [Hne [Hpos Hnc]]. unfold _boxcox.
    rewrite checked_pass; auto using ndim_asarray, size_asarray_nonempty.
    unfold _boxcox_normmax. now rewrite make_optimizer_malformed.
  - reflexivity.
Qed.

(** X2: with well-formed bounds, a method name other than "pearsonr", "mle"
    and "all" makes [_boxcox_normmax] raise "Method ... not recognized."
    whatever the data, and so does [_fit] of a transformer with such a
    method (other than "guerrero") on a series the validator accepts. *)
Theorem unknown_method_rejected (x : ndarray) (bounds : py_bounds)
    (brack : R * R) (method : string) :
  ~ malformed_bounds bounds -> ~ known_method method ->
  _boxcox_normmax x bounds brack method
  = Raise (ValueError (Msg.method_unknown method))
  /\ fails_with (_boxcox_normmax x bounds brack method) InvalidParameter
  /\ (forall (self : BoxCoxTransformer.t) (Z z : Series),
        BoxCoxTransformer.method self = method ->
        BoxCoxTransformer.bounds self = bounds ->
        method <> "guerrero"%string ->
        check_series Z = Ok z ->
        fails_with (BoxCoxTransformer._fit self Z) InvalidParameter).
Proof.
  intros Hb Hm.
  assert (forall x brack,
             _boxcox_normmax x bounds brack method
             = Raise (ValueError (Msg.method_unknown method))) as E.
  { intros x0 brack0. unfold _boxcox_normmax.
    destruct (make_optimizer_well_formed bounds brack0 Hb) as [opt ->].
    cbn [bind].
    destruct (String.eqb_spec method "pearsonr") as [->|_];
      [exfalso; apply Hm; left; reflexivity|].
    destruct (String.eqb_spec method "mle") as [->|_];
      [exfalso; apply Hm; right; left; reflexivity|].
    destruct (String.eqb_spec method "all") as [->|_];
      [exfalso; apply Hm; right; right; reflexivity|].
    reflexivity. }
  assert (forall m, spec_error_of (ValueError (Msg.method_unknown m))
                    = InvalidParameter) as K.
  { intros m. unfold spec_error_of, Msg.method_unknown. simpl.
    destruct (m ++ " not recognized.")%string; reflexivity. }
  split; [apply E|]. split.
  - rewrite E. eexists. split; [reflexivity | apply K].
  - intros self Z z Hmeth Hbd Hg Hc. unfold BoxCoxTransformer._fit.
    rewrite Hc. cbn [bind]. rewrite Hmeth, Hbd.
    destruct (String.eqb_spec method "guerrero") as [->|_]; [contradiction|].
    simpl negb. cbv iota. rewrite E. cbn [bind].
    eexists. split; [reflexivity | apply K].
Qed.

End BoundsAndMethod.

Lemma malformed_bounds_rejected_witness :
  @_boxcox_normmax Examples.scipy_probe (np_asarray [1; 2]) (BoundsTuple [1; 2; 3])
    default_brack "mle"
  = Raise (ValueError Msg.bounds_tuple).
Proof.
  refine (proj1 (@malformed_bounds_rejected Examples.scipy_probe
                   (BoundsTuple [1; 2; 3]) _) _ _ _).
  exact I.
Defined.

Lemma unknown_method_rejected_witness :
  fails_with
    (@_boxcox_normmax Examples.scipy_probe (np_asarray [1; 2]) BoundsNone
       default_brack "median")
    InvalidParameter.
Proof.
  refine (proj1 (proj2 (@unknown_method_rejected Examples.scipy_probe
                          Examples.accept_all (np_asarray [1; 2]) BoundsNone
                          default_brack "median" _ _))).
  - intros H. exact H.
  - intros [H | [H | H]]; discriminate H.
Defined.

(** ** The self-fitting path of [_boxcox] and the objectives *)

Section SelfFit.

Context {scipy : SciPy}.

(** X3: on data that passes the guards, [_boxcox] without a lambda is the
    "mle" search followed by [_boxcox] with the lambda found: an error of
    the search is the error of the call; otherwise the call returns the
    transformed array and the lambda, and with [alpha] the confidence
    interval of [_boxcox_conf_interval] as the third component. *)
Theorem boxcox_self_fit (x : list R) (bounds : py_bounds) :
  valid_data x ->
  (forall e alpha,
      _boxcox_normmax (np_asarray x) bounds default_brack "mle" = Raise e ->
      _boxcox (np_asarray x) None bounds alpha = Raise e)
  /\ (forall lmax,
        _boxcox_normmax (np_asarray x) bounds default_brack "mle" = Ok lmax ->
        exists l y,
          lmax = LScalar l
          /\ _boxcox (np_asarray x) (Some lmax) bounds None = Ok (Transformed y)
          /\ _boxcox (np_asarray x) None bounds None = Ok (WithLambda y lmax)
          /\ forall a,
               _boxcox (np_asarray x) None bounds (Some a)
               = Ok (WithInterval y lmax
                       (_boxcox_conf_interval (np_asarray x) lmax a))).
Proof.
  intros [Hne [Hpos Hnc]]. split.
  - intros e alpha He. unfold _boxcox.
    rewrite checked_pass; auto using ndim_asarray, size_asarray_nonempty.
    now rewrite He.
  - intros lmax Hl.
    assert (exists l, lmax = LScalar l) as [l ->].
    { rewrite normmax_mle in Hl.
      destruct (_make_boxcox_optimizer bounds default_brack) as [opt|];
        [|discriminate].
      cbn [bind] in Hl. destruct (_mle opt (np_asarray x)); [|discriminate].
      cbn [bind] in Hl. injection Hl as <-. eauto. }
    exists l, (np_asarray (map (fun v => special_boxcox1 v l) x)).
    split; [reflexivity|]. split; [now apply boxcox_given_lambda|].
    assert (_boxcox_lmbda (np_asarray x) (LScalar l)
            = Ok (np_asarray (map (fun v => special_boxcox1 v l) x))) as Ey.
    { unfold _boxcox_lmbda.
      rewrite checked_pass; auto using ndim_asarray, size_asarray_nonempty. }
    split.
    + unfold _boxcox.
      rewrite checked_pass; auto using ndim_asarray, size_asarray_nonempty.
      rewrite Hl. cbn [bind]. rewrite Ey. reflexivity.
    + intros a. unfold _boxcox.
      rewrite checked_pass; auto using ndim_asarray, size_asarray_nonempty.
      rewrite Hl. cbn [bind]. rewrite Ey. reflexivity.
Qed.

(** X4: the objective of "pearsonr" goes through the guards of [_boxcox]
    at every lambda: on a non-empty constant array it raises the
    constant-data error, and on a non-constant array with a non-positive
    element the positivity error, whatever the lambda.  The objective of
    "mle" never raises: that path does not look at the data before the
    minimizer runs. *)
Theorem objectives_and_guards (x xvals : list R) :
  (x <> [] -> all_equal x ->
   forall lmbda,
     _eval_pearsonr xvals (np_asarray x) lmbda = Raise (ValueError Msg.not_constant))
  /\ (~ all_equal x -> has_non_positive x ->
      forall lmbda,
        _eval_pearsonr xvals (np_asarray x) lmbda = Raise (ValueError Msg.positive))
  /\ (forall lmbda,
        _eval_mle (np_asarray x) lmbda = Ok (- boxcox_llf lmbda (np_asarray x))).
Proof.
  split; [|split].
  - intros Hne Hc lmbda. unfold _eval_pearsonr, _boxcox_lmbda.
    rewrite checked_constant; auto using ndim_asarray, size_asarray_nonempty.
  - intros Hnc Hn lmbda. unfold _eval_pearsonr, _boxcox_lmbda.
    rewrite checked_non_positive;
      auto using ndim_asarray, size_asarray_nonempty, has_non_positive_nonempty.
  - reflexivity.
Qed.

End SelfFit.

Lemma valid_data_1_2 : valid_data [1; 2].
Proof.
  split; [discriminate|]. split; [exact strictly_positive_1_2 | exact not_all_equal_1_2].
Qed.

Lemma boxcox_self_fit_witness :
  exists y,
    @_boxcox Examples.scipy_probe (np_asarray [1; 2]) None BoundsNone None
    = Ok (WithLambda y (LScalar 0)).
Proof.
  destruct (proj2 (@boxcox_self_fit Examples.scipy_probe [1; 2] BoundsNone
                     valid_data_1_2) (LScalar 0) eq_refl)
    as [l [y [_ [_ [H _]]]]].
  exists y. exact H.
Defined.

Lemma objectives_and_guards_witness :
  @_eval_pearsonr Examples.scipy_probe [0; 0; 0; 0] (np_asarray [5; 5; 5; 5]) 1
  = Raise (ValueError Msg.not_constant)
  /\ @_eval_pearsonr Examples.scipy_probe [0; 0; 0] (np_asarray [1; -2; 3]) 1
     = Raise (ValueError Msg.positive).
Proof.
  split.
  - refine (proj1 (@objectives_and_guards Examples.scipy_probe [5; 5; 5; 5]
                     [0; 0; 0; 0]) _ _ 1).
    + discriminate.
    + exact (all_equal_repeat 5 4).
  - refine (proj1 (proj2 (@objectives_and_guards Examples.scipy_probe [1; -2; 3]
                            [0; 0; 0])) _ _ 1).
    + exact not_all_equal_1_m2_3.
    + exact has_non_positive_1_m2_3.
Defined.

(** ** The transform as a function of the data *)

Lemma special_boxcox1_increasing (lmbda a b : R) :
  0 < a -> a < b -> special_boxcox1 a lmbda < special_boxcox1 b lmbda.
Proof.
  intros Ha Hab. pose proof (ln_increasing a b Ha Hab) as Hln.
  unfold special_boxcox1, expm1. destruct (Req_dec_T lmbda 0) as [E|N]; [exact Hln|].
  destruct (Rdichotomy _ _ N) as [Hneg|Hpos].
  - assert (lmbda * ln b < lmbda * ln a) as Hm by nra.
    apply exp_increasing in Hm. pose proof (Rinv_neg _ Hneg) as Hi.
    unfold Rdiv. nra.
  - assert (lmbda * ln a < lmbda * ln b) as Hm by nra.
    apply exp_increasing in Hm. pose proof (Rinv_pos _ Hpos) as Hi.
    unfold Rdiv. nra.
Qed.

(** [boxcox] undoes [inv_boxcox] where [1 + lmbda * z] is positive. *)
Lemma boxcox_inv_boxcox (lmbda z : R) :
  0 < 1 + lmbda * z -> special_boxcox1 (special_inv_boxcox1 z lmbda) lmbda = z.
Proof.
  intros Hz. unfold special_inv_boxcox1, special_boxcox1.
  destruct (Req_dec_T lmbda 0) as [E|N].
  - apply ln_exp.
  - unfold log1p, expm1. rewrite ln_exp.
    replace (lmbda * (ln (1 + lmbda * z) / lmbda)) with (ln (1 + lmbda * z))
      by (field; exact N).
    rewrite exp_ln by exact Hz. field. exact N.
Qed.

Lemma map_boxcox_inv_boxcox (lmbda : R) (l : list R) :
  Forall (fun z => 0 < 1 + lmbda * z) l ->
  map (fun v => special_boxcox1 v lmbda) (map (fun v => special_inv_boxcox1 v lmbda) l) = l.
Proof.
  induction 1 as [|v l Hv Hl IH]; simpl; [reflexivity|].
  rewrite boxcox_inv_boxcox by exact Hv. now rewrite IH.
Qed.

Section TransformerBehaviour.

Context {scipy : SciPy} {validation : Validation}.

Import BoxCoxTransformer.

(** X5: in exact real arithmetic, on data that passes its guards,
    [_boxcox] with a lambda keeps the order of the observations: the
    transform of a smaller value is smaller.  So the output has one value
    per observation and is again not constant. *)
Theorem boxcox_keeps_order (x : list R) (lmbda : R) (bounds : py_bounds)
    (alpha : option R) :
  valid_data x ->
  exists y,
    _boxcox (np_asarray x) (Some (LScalar lmbda)) bounds alpha
    = Ok (Transformed (np_asarray y))
    /\ length y = length x
    /\ (forall i j,
          (i < length x)%nat -> (j < length x)%nat ->
          nth i x 0 < nth j x 0 -> nth i y 0 < nth j y 0)
    /\ ~ all_equal y.
Proof.
  intros [Hne [Hpos Hnc]].
  set (f := fun v => special_boxcox1 v lmbda).
  assert (forall i, nth i (map f x) 0 = f (nth i x 0) \/ (length x <= i)%nat) as Hnth.
  { intros i. destruct (Nat.lt_ge_cases i (length x)) as [Hi|Hi]; [left|now right].
    rewrite (nth_indep _ 0 (f 0)) by (now rewrite length_map). apply map_nth. }
  exists (map f x). split; [now apply boxcox_given_lambda|].
  split; [apply length_map|]. split.
  - intros i j Hi Hj Hlt.
    destruct (Hnth i) as [->|]; [|lia]. destruct (Hnth j) as [->|]; [|lia].
    apply special_boxcox1_increasing; [|exact Hlt].
    unfold strictly_positive in Hpos. rewrite Forall_forall in Hpos.
    apply Hpos, nth_In, Hi.
  - intros Hy. apply Hnc. intros a b Ha Hb.
    unfold strictly_positive in Hpos. rewrite Forall_forall in Hpos.
    pose proof (Hy (f a) (f b) (in_map f x a Ha) (in_map f x b Hb)) as E.
    destruct (Rtotal_order a b) as [Hlt|[Heq|Hgt]]; [|exact Heq|].
    + pose proof (special_boxcox1_increasing lmbda a b (Hpos a Ha) Hlt).
      unfold f in E. lra.
    + pose proof (special_boxcox1_increasing lmbda b a (Hpos b Hb) Hgt).
      unfold f in E. lra.
Qed.

(** X6: in exact real arithmetic (no rounding, no overflow), [_transform]
    of the transformer applied to the outcome of [inverse_transform] gives
    the series back, for a fitted transformer with a scalar lambda,
    wherever [1 + lambda * z] is positive (for lambda 0: everywhere). *)
Theorem transform_after_inverse (self : t) (Z : Series) (lmbda : R) :
  _is_fitted self = true ->
  lambda_ self = Some (LScalar lmbda) ->
  check_series Z = Ok Z -> well_formed Z ->
  (forall Zi, inverse_transform self Z = Ok Zi -> check_series Zi = Ok Zi) ->
  Forall (fun z => 0 < 1 + lmbda * z) (values Z) ->
  exists Zi, inverse_transform self Z = Ok Zi /\ _transform self Zi = Ok Z.
Proof.
  intros Hf Hl Hc Hw Hci Hpos.
  assert (inverse_transform self Z
          = Ok {| index := index Z;
                  values := map (fun v => special_inv_boxcox1 v lmbda) (values Z) |})
    as Hi.
  { unfold inverse_transform, check_is_fitted. rewrite Hf. cbn [bind].
    rewrite Hc, Hl. simpl. unfold pd_Series. rewrite length_map.
    unfold well_formed in Hw. rewrite <- Hw, Nat.eqb_refl. reflexivity. }
  eexists. split; [exact Hi|].
  unfold _transform. rewrite (Hci _ Hi), Hl. simpl.
  rewrite map_boxcox_inv_boxcox by exact Hpos.
  unfold pd_Series. unfold well_formed in Hw. rewrite <- Hw, Nat.eqb_refl.
  destruct Z; reflexivity.
Qed.

(** X7: the method [_transform] applies none of the guards of [_boxcox]:
    with a scalar lambda it answers on every series the validator accepts
    (constant or not, positive or not), with the index of the input and one
    value per observation; so does [inverse_transform] on a fitted
    transformer. *)
Theorem transformer_methods_never_reject (self : t) (Z : Series) (lmbda : R) :
  lambda_ self = Some (LScalar lmbda) ->
  check_series Z = Ok Z -> well_formed Z ->
  (exists zt,
      _transform self Z = Ok {| index := index Z; values := zt |}
      /\ length zt = length (values Z))
  /\ (_is_fitted self = true ->
      exists zt,
        inverse_transform self Z = Ok {| index := index Z; values := zt |}
        /\ length zt = length (values Z)).
Proof.
  intros Hl Hc Hw. split.
  - exists (map (fun v => special_boxcox1 v lmbda) (values Z)).
    split; [exact (transform_given_lambda self Z lmbda Hl Hc Hw) | apply length_map].
  - intros Hf. exists (map (fun v => special_inv_boxcox1 v lmbda) (values Z)).
    split; [|apply length_map].
    unfold inverse_transform, check_is_fitted. rewrite Hf. cbn [bind].
    rewrite Hc, Hl. simpl. unfold pd_Series. rewrite length_map.
    unfold well_formed in Hw. rewrite <- Hw, Nat.eqb_refl. reflexivity.
Qed.

(** X8: after [_fit] with method "all" the attribute [lambda_] holds a
    vector of two values, and [_transform] then fails on every series of
    three or more observations: the two operands of the ufunc cannot be
    broadcast together. *)
Theorem method_all_breaks_transform (self self' : t) (Z Z' z' : Series) :
  method self = "all"%string ->
  _fit self Z = Ok self' ->
  check_series Z' = Ok z' -> (3 <= length (values z'))%nat ->
  (exists p m, lambda_ self' = Some (LVector [p; m]))
  /\ _transform self' Z' = Raise (ValueError Msg.broadcast).
Proof.
  intros Hm Hfit Hc Hlen.
  assert (exists p m, lambda_ self' = Some (LVector [p; m])) as [p [m Hl]].
  { unfold _fit in Hfit. destruct (check_series Z) as [z|]; [|discriminate].
    cbn [bind] in Hfit. rewrite Hm in Hfit. simpl negb in Hfit. cbv iota in Hfit.
    rewrite normmax_all in Hfit.
    destruct (_make_boxcox_optimizer (bounds self) default_brack) as [opt|];
      [|discriminate].
    cbn [bind] in Hfit. destruct (_pearsonr opt (to_numpy z)) as [p|]; [|discriminate].
    cbn [bind] in Hfit. destruct (_mle opt (to_numpy z)) as [m|]; [|discriminate].
    cbn [bind] in Hfit. injection Hfit as <-. exists p, m. reflexivity. }
  split; [eauto|].
  unfold _transform. rewrite Hc. cbn [bind]. rewrite Hl.
  unfold ufunc, broadcast1. change (data (to_numpy z')) with (values z').
  destruct (values z') as [|a [|b [|c l]]]; simpl in Hlen; try lia.
  reflexivity.
Qed.

End TransformerBehaviour.

Lemma boxcox_keeps_order_witness :
  exists y,
    @_boxcox Examples.scipy_probe (np_asarray [1; 2]) (Some (LScalar 2)) BoundsNone None
    = Ok (Transformed (np_asarray y))
    /\ length y = 2%nat.
Proof.
  destruct (@boxcox_keeps_order Examples.scipy_probe [1; 2] 2 BoundsNone None
              valid_data_1_2) as [y [H1 [H2 _]]].
  exists y. split; [exact H1 | exact H2].
Defined.

Lemma transform_after_inverse_witness :
  exists Zi,
    @BoxCoxTransformer.inverse_transform Examples.accept_all (Examples.fitted 2)
      {| index := [0; 1]%Z; values := [0; 1] |} = Ok Zi
    /\ @BoxCoxTransformer._transform Examples.accept_all (Examples.fitted 2) Zi
       = Ok {| index := [0; 1]%Z; values := [0; 1] |}.
Proof.
  refine (@transform_after_inverse Examples.accept_all (Examples.fitted 2)
            {| index := [0; 1]%Z; values := [0; 1] |} 2 _ _ _ _ _ _).
  - reflexivity.
  - reflexivity.
  - reflexivity.
  - reflexivity.
  - reflexivity.
  - repeat constructor; simpl; lra.
Defined.

Lemma transformer_methods_never_reject_witness :
  exists zt,
    @BoxCoxTransformer._transform Examples.accept_all (Examples.fitted 1)
      {| index := [0; 1; 2]%Z; values := [-3; -3; -3] |}
    = Ok {| index := [0; 1; 2]%Z; values := zt |}
    /\ length zt = 3%nat.
Proof.
  refine (proj1 (@transformer_methods_never_reject Examples.accept_all
                   (Examples.fitted 1)
                   {| index := [0; 1; 2]%Z; values := [-3; -3; -3] |} 1 _ _ _));
    reflexivity.
Defined.

Lemma probe_fit_all_1_2 :
  @BoxCoxTransformer._fit Examples.scipy_probe Examples.accept_all
    (BoxCoxTransformer.__init__ BoundsNone "all" PyNone) Examples.series_1_2
  = Ok (BoxCoxTransformer.mk BoundsNone "all" (Some (LVector [0; 0])) PyNone false).
Proof.
  unfold BoxCoxTransformer._fit. simpl check_series. cbn [bind].
  simpl BoxCoxTransformer.method. simpl negb. cbv iota.
  rewrite normmax_all. simpl _make_boxcox_optimizer. cbn [bind].
  unfold _pearsonr. simpl optimize_brent.
  unfold Examples.probe_at_zero at 1. unfold _eval_pearsonr, _boxcox_lmbda.
  rewrite checked_pass.
  - reflexivity.
  - reflexivity.
  - apply size_asarray_nonempty. discriminate.
  - exact not_all_equal_1_2.
  - exact strictly_positive_1_2.
Qed.

Lemma method_all_breaks_transform_witness :
  @BoxCoxTransformer._transform Examples.accept_all
    (BoxCoxTransformer.mk BoundsNone "all" (Some (LVector [0; 0])) PyNone false)
    {| index := [0; 1; 2]%Z; values := [1; 2; 3] |}
  = Raise (ValueError Msg.broadcast).
Proof.
  refine (proj2 (@method_all_breaks_transform Examples.scipy_probe Examples.accept_all
                   (BoxCoxTransformer.__init__ BoundsNone "all" PyNone)
                   (BoxCoxTransformer.mk BoundsNone "all" (Some (LVector [0; 0]))
                      PyNone false)
                   Examples.series_1_2
                   {| index := [0; 1; 2]%Z; values := [1; 2; 3] |}
                   {| index := [0; 1; 2]%Z; values := [1; 2; 3] |} _ _ _ _)).
  - reflexivity.
  - exact probe_fit_all_1_2.
  - reflexivity.
  - simpl. lia.
Defined.

(** ** The logarithm transformer *)

Section LogTransformerBehaviour.

Context {validation : Validation}.

(** X9: in exact real arithmetic (no rounding, no overflow), for a fitted
    [LogTransformer], [inverse_transform] after [transform] gives a
    strictly positive series back, and [transform] after
    [inverse_transform] gives every series back; both keep the index. *)
Theorem log_transformer_roundtrips (self : LogTransformer.t) (Z : Series) :
  LogTransformer._is_fitted self = true ->
  check_series Z = Ok Z ->
  check_series (np_log Z) = Ok (np_log Z) ->
  check_series (np_exp Z) = Ok (np_exp Z) ->
  LogTransformer.transform self Z = Ok (np_log Z)
  /\ LogTransformer.inverse_transform self Z = Ok (np_exp Z)
  /\ LogTransformer.transform self (np_exp Z) = Ok Z
  /\ (strictly_positive (values Z) ->
      LogTransformer.inverse_transform self (np_log Z) = Ok Z).
Proof.
  intros Hf Hc Hcl Hce.
  unfold LogTransformer.transform, LogTransformer.inverse_transform,
    LogTransformer.check_is_fitted. rewrite Hf, Hc, Hcl, Hce. cbn [bind].
  split; [reflexivity|]. split; [reflexivity|]. split.
  - destruct Z as [idx vs]. unfold np_log, np_exp. simpl. do 2 f_equal.
    rewrite map_map. rewrite <- (map_id vs) at 2. apply map_ext. intros v. apply ln_exp.
  - intros Hpos. destruct Z as [idx vs]. unfold np_log, np_exp. simpl in *.
    do 2 f_equal. rewrite map_map. rewrite <- (map_id vs) at 2.
    apply map_ext_in. intros v Hv. apply exp_ln.
    unfold strictly_positive in Hpos. rewrite Forall_forall in Hpos. now apply Hpos.
Qed.

(** X10: a Box-Cox transformer whose lambda is 0 transforms like the
    [LogTransformer], and inverts like it: on a series with one label per
    value, [_transform] is [np.log] and [inverse_transform] is [np.exp]. *)
Theorem boxcox_at_zero_is_log (bc : BoxCoxTransformer.t) (self : LogTransformer.t)
    (Z : Series) :
  BoxCoxTransformer.lambda_ bc = Some (LScalar 0) ->
  BoxCoxTransformer._is_fitted bc = true ->
  LogTransformer._is_fitted self = true ->
  check_series Z = Ok Z -> well_formed Z ->
  BoxCoxTransformer._transform bc Z = LogTransformer.transform self Z
  /\ BoxCoxTransformer.inverse_transform bc Z = LogTransformer.inverse_transform self Z.
Proof.
  intros Hl Hfb Hfl Hc Hw.
  assert (forall v, special_boxcox1 v 0 = ln v) as Eb.
  { intros v. unfold special_boxcox1. destruct (Req_dec_T 0 0); [reflexivity | lra]. }
  assert (forall v, special_inv_boxcox1 v 0 = exp v) as Ei.
  { intros v. unfold special_inv_boxcox1. destruct (Req_dec_T 0 0); [reflexivity | lra]. }
  unfold BoxCoxTransformer._transform, BoxCoxTransformer.inverse_transform,
    BoxCoxTransformer.check_is_fitted, LogTransformer.transform,
    LogTransformer.inverse_transform, LogTransformer.check_is_fitted.
  rewrite Hfb, Hfl, Hc, Hl. cbn [bind]. simpl.
  unfold BoxCoxTransformer.pd_Series. rewrite !length_map.
  unfold well_formed in Hw. rewrite <- Hw, Nat.eqb_refl.
  unfold np_log, np_exp. split; do 2 f_equal; apply map_ext; assumption.
Qed.

End LogTransformerBehaviour.

Lemma log_transformer_roundtrips_witness :
  @LogTransformer.inverse_transform Examples.accept_all (LogTransformer.mk true)
    (np_log Examples.series_1_2)
  = Ok Examples.series_1_2.
Proof.
  refine (proj2 (proj2 (proj2 (@log_transformer_roundtrips Examples.accept_all
                                 (LogTransformer.mk true) Examples.series_1_2
                                 _ _ _ _))) _).
  - reflexivity.
  - reflexivity.
  - reflexivity.
  - reflexivity.
  - exact strictly_positive_1_2.
Defined.

Lemma boxcox_at_zero_is_log_witness :
  @BoxCoxTransformer._transform Examples.accept_all (Examples.fitted 0)
    Examples.series_1_2
  = @LogTransformer.transform Examples.accept_all (LogTransformer.mk true)
      Examples.series_1_2.
Proof.
  refine (proj1 (@boxcox_at_zero_is_log Examples.accept_all (Examples.fitted 0)
                   (LogTransformer.mk true) Examples.series_1_2 _ _ _ _ _));
    reflexivity.
Defined.

(** ** Guerrero: what the estimate depends on *)

Lemma blocks_upto_map (f : R -> R) (fuel n : nat) (l : list R) :
  blocks_upto fuel n (map f l) = map (map f) (blocks_upto fuel n l).
Proof.
  revert l. induction fuel as [|fuel IH]; intros l; [reflexivity|].
  destruct l as [|a l]; [reflexivity|].
  change (map f (a :: l)) with (f a :: map f l).
  cbn [blocks_upto map]. change (f a :: map f l) with (map f (a :: l)).
  rewrite firstn_map, skipn_map, IH. reflexivity.
Qed.

Lemma consecutive_blocks_map (f : R -> R) (n : nat) (l : list R) :
  consecutive_blocks n (map f l) = map (map f) (consecutive_blocks n l).
Proof. unfold consecutive_blocks. now rewrite length_map, blocks_upto_map. Qed.

Lemma blocks_upto_short (fuel n : nat) (l : list R) :
  l = [] -> blocks_upto fuel n l = [].
Proof. intros ->. now destruct fuel. Qed.

Lemma total_scale (c : R) (l : list R) : total (map (Rmult c) l) = c * total l.
Proof. induction l as [|a l IH]; simpl; [lra|]. rewrite IH. lra. Qed.

Lemma np_mean_scale (c : R) (l : list R) : np_mean (map (Rmult c) l) = c * np_mean l.
Proof.
  unfold np_mean. rewrite !np_sum_total, total_scale, length_map.
  unfold Rdiv. ring.
Qed.

Lemma np_std_scale (ddof : nat) (c : R) (l : list R) :
  0 <= c -> np_std ddof (map (Rmult c) l) = c * np_std ddof l.
Proof.
  intros Hc. unfold np_std. cbv zeta. rewrite np_mean_scale, length_map, map_map.
  rewrite !np_sum_total.
  replace (map (fun x => (c * x - c * np_mean l) * (c * x - c * np_mean l)) l)
    with (map (Rmult (c * c)) (map (fun v => (v - np_mean l) * (v - np_mean l)) l)).
  - rewrite total_scale.
    replace (c * c * total (map (fun v => (v - np_mean l) * (v - np_mean l)) l)
             / INR (length l - ddof))
      with (c * c * (total (map (fun v => (v - np_mean l) * (v - np_mean l)) l)
                     / INR (length l - ddof)))
      by (unfold Rdiv; ring).
    rewrite sqrt_mult_alt by nra. rewrite sqrt_square by exact Hc. reflexivity.
  - rewrite map_map. apply map_ext. intros v. ring.
Qed.

(** The coefficient of variation does not see a common positive factor. *)
Lemma variation_scale (k : R) (l : list R) :
  0 < k -> variation (map (Rmult k) l) = variation l.
Proof.
  intros Hk. unfold variation. rewrite np_std_scale by lra. rewrite np_mean_scale.
  unfold Rdiv. rewrite Rinv_mult.
  transitivity ((k * / k) * (np_std 0 l * / np_mean l)); [ring|].
  rewrite Rinv_r by lra. ring.
Qed.

Lemma total_positive (l : list R) :
  l <> [] -> strictly_positive l -> 0 < total l.
Proof.
  intros Hne Hp. induction Hp as [|a l Ha Hl IH]; [contradiction|]. simpl.
  destruct l as [|b l]; [simpl; lra|].
  assert (0 < total (b :: l)) by (apply IH; discriminate). lra.
Qed.

Lemma np_mean_positive (l : list R) :
  l <> [] -> strictly_positive l -> 0 < np_mean l.
Proof.
  intros Hne Hp. unfold np_mean. rewrite np_sum_total.
  apply Rdiv_lt_0_compat; [now apply total_positive|].
  apply lt_0_INR. destruct l; [contradiction | simpl; lia].
Qed.

Lemma eval_guerrero_ratios (blocks : list (list R)) (lmb : R) :
  _eval_guerrero (map (np_std 1) blocks) (map np_mean blocks) lmb
  = Ok (variation (map (fun b => np_std 1 b / Rpower (np_mean b) (1 - lmb)) blocks)).
Proof.
  unfold _eval_guerrero. do 2 f_equal.
  induction blocks as [|b bs IH]; simpl; [reflexivity|]. now rewrite IH.
Qed.

Lemma guerrero_ratio_scale (c lmb : R) (b : list R) :
  0 < c -> b <> [] -> strictly_positive b ->
  np_std 1 (map (Rmult c) b) / Rpower (np_mean (map (Rmult c) b)) (1 - lmb)
  = (c / Rpower c (1 - lmb)) * (np_std 1 b / Rpower (np_mean b) (1 - lmb)).
Proof.
  intros Hc Hne Hp. rewrite np_std_scale by lra. rewrite np_mean_scale.
  rewrite <- Rpower_mult_distr by (auto using np_mean_positive).
  unfold Rdiv. rewrite Rinv_mult. ring.
Qed.

Lemma trimmed_blocks (x : list R) (n : nat) :
  n <> 0%nat ->
  concat (consecutive_blocks n (skipn (length x mod n) x)) = skipn (length x mod n) x
  /\ Forall (fun b => length b = n) (consecutive_blocks n (skipn (length x mod n) x)).
Proof.
  intros Hn. pose proof (trimmed_length x n Hn) as Hm.
  destruct (reshape_rows_blocks _ _ Hn Hm) as [bs [Hr [Hc [Hlen _]]]].
  rewrite (reshape_rows_consecutive _ _ Hn Hm) in Hr. injection Hr as <-. auto.
Qed.

Section GuerreroBehaviour.

Context {scipy : SciPy}.

(** X11: the Guerrero estimate does not depend on the first
    [len(x) mod sp] observations: two sequences of the same length that
    agree after that prefix get the same result. *)
Theorem guerrero_ignores_prefix (x x' : list R) (z : Z) (bounds : py_bounds) :
  (2 <= z)%Z -> length x = length x' ->
  skipn (length x mod Z.to_nat z) x = skipn (length x mod Z.to_nat z) x' ->
  _guerrero (np_asarray x) (PyInt z) bounds = _guerrero (np_asarray x') (PyInt z) bounds.
Proof.
  intros Hz Hlen Hs. rewrite !guerrero_valid_sp by exact Hz.
  now rewrite <- Hlen, <- Hs.
Qed.

(** X12: a sequence shorter than the seasonal period is trimmed away
    entirely; [_guerrero] raises nothing of its own and hands the minimizer
    the objective over zero blocks. *)
Theorem guerrero_short_series (x : list R) (z : Z) (bounds : py_bounds) :
  (2 <= z)%Z -> (Z.of_nat (length x) < z)%Z ->
  skipn (length x mod Z.to_nat z) x = []
  /\ _guerrero (np_asarray x) (PyInt z) bounds
     = (opt <- _make_boxcox_optimizer bounds default_brack ;;
        opt (_eval_guerrero [] [])).
Proof.
  intros Hz Hshort.
  assert (length x mod Z.to_nat z = length x)%nat as Hmod
    by (apply Nat.mod_small; lia).
  assert (skipn (length x mod Z.to_nat z) x = []) as Hs
    by (rewrite Hmod; apply skipn_all).
  split; [exact Hs|].
  rewrite guerrero_valid_sp by exact Hz. cbv zeta. rewrite Hs.
  unfold consecutive_blocks. rewrite blocks_upto_short by reflexivity. reflexivity.
Qed.

(** X13: with a valid seasonal period, [_guerrero] refuses an array that
    is not 1-D with "Data must be 1-dimensional." before it looks at the
    bounds, well formed or not. *)
Theorem guerrero_not_1d (x : ndarray) (z : Z) (bounds : py_bounds) :
  (2 <= z)%Z -> ndim x <> 1%nat ->
  _guerrero x (PyInt z) bounds = Raise (ValueError Msg.one_dimensional)
  /\ fails_with (_guerrero x (PyInt z) bounds) ShapeError.
Proof.
  intros Hz Hd.
  assert (_guerrero x (PyInt z) bounds = Raise (ValueError Msg.one_dimensional)) as E.
  { unfold _guerrero. simpl py_is_none. simpl is_int. simpl py_lt.
    destruct (Z.ltb_spec z 2) as [Hlt|_]; [lia|]. simpl orb. cbv iota.
    destruct (Nat.eqb_spec (ndim x) 1); [contradiction | reflexivity]. }
  split; [exact E|]. rewrite E. eexists. split; reflexivity.
Qed.

(** X14: the Guerrero estimate does not depend on the unit of the data:
    multiplying a strictly positive sequence by a positive constant leaves
    the objective, and so the result, unchanged. *)
Theorem guerrero_scale_invariant (x : list R) (c : R) (z : Z) (bounds : py_bounds) :
  (2 <= z)%Z -> 0 < c -> strictly_positive x ->
  _guerrero (np_asarray (map (Rmult c) x)) (PyInt z) bounds
  = _guerrero (np_asarray x) (PyInt z) bounds.
Proof.
  intros Hz Hc Hpos. rewrite !guerrero_valid_sp by exact Hz. cbv zeta.
  rewrite length_map, skipn_map, consecutive_blocks_map.
  assert (Z.to_nat z <> 0%nat) as Hsp by lia.
  destruct (trimmed_blocks x (Z.to_nat z) Hsp) as [Hcat Hlen].
  set (blocks := consecutive_blocks (Z.to_nat z)
                   (skipn (length x mod Z.to_nat z) x)) in *.
  assert (forall b, In b blocks -> b <> [] /\ strictly_positive b) as Hb.
  { intros b Hin. split.
    - rewrite Forall_forall in Hlen. specialize (Hlen b Hin).
      intros ->. simpl in Hlen. lia.
    - unfold strictly_positive in *. rewrite Forall_forall in *.
      intros v Hv. apply Hpos.
      assert (In v (concat blocks)) as Hvc by (apply in_concat; eauto).
      rewrite Hcat in Hvc. clear - Hvc.
      rewrite <- (firstn_skipn (length x mod Z.to_nat z) x).
      apply in_or_app. now right. }
  assert (_eval_guerrero (map (np_std 1) (map (map (Rmult c)) blocks))
            (map np_mean (map (map (Rmult c)) blocks))
          = _eval_guerrero (map (np_std 1) blocks) (map np_mean blocks)) as ->;
    [|reflexivity].
  apply functional_extensionality. intros lmb.
  rewrite !eval_guerrero_ratios. f_equal. rewrite map_map.
  transitivity
    (variation
       (map (Rmult (c / Rpower c (1 - lmb)))
            (map (fun b => np_std 1 b / Rpower (np_mean b) (1 - lmb)) blocks))).
  - f_equal. rewrite map_map. apply map_ext_in. intros b Hin.
    destruct (Hb b Hin) as [Hne Hp]. now apply guerrero_ratio_scale.
  - apply variation_scale.
    apply Rdiv_lt_0_compat; [exact Hc | apply exp_pos].
Qed.

End GuerreroBehaviour.

Lemma guerrero_ignores_prefix_witness :
  @_guerrero Examples.scipy_probe (np_asarray [1; 2; 3]) (PyInt 2) BoundsNone
  = @_guerrero Examples.scipy_probe (np_asarray [7; 2; 3]) (PyInt 2) BoundsNone.
Proof.
  refine (@guerrero_ignores_prefix Examples.scipy_probe [1; 2; 3] [7; 2; 3] 2
            BoundsNone _ _ _).
  - lia.
  - reflexivity.
  - reflexivity.
Defined.

Lemma guerrero_short_series_witness :
  @_guerrero Examples.scipy_probe (np_asarray [1; 2; 3]) (PyInt 4) BoundsNone
  = (opt <- @_make_boxcox_optimizer Examples.scipy_probe BoundsNone default_brack ;;
     opt (_eval_guerrero [] [])).
Proof.
  refine (proj2 (@guerrero_short_series Examples.scipy_probe [1; 2; 3] 4
                   BoundsNone _ _)).
  - lia.
  - simpl. lia.
Defined.

Lemma guerrero_not_1d_witness :
  fails_with
    (@_guerrero Examples.scipy_probe {| shape := [2; 2]%nat; data := [1; 2; 3; 4] |}
       (PyInt 2) (BoundsTuple [1]))
    ShapeError.
Proof.
  refine (proj2 (@guerrero_not_1d Examples.scipy_probe
                   {| shape := [2; 2]%nat; data := [1; 2; 3; 4] |} 2
                   (BoundsTuple [1]) _ _)).
  - lia.
  - simpl. discriminate.
Defined.

Lemma guerrero_scale_invariant_witness :
  @_guerrero Examples.scipy_probe (np_asarray (map (Rmult 10) [1; 2; 3; 4])) (PyInt 2)
    BoundsNone
  = @_guerrero Examples.scipy_probe (np_asarray [1; 2; 3; 4]) (PyInt 2) BoundsNone.
Proof.
  refine (@guerrero_scale_invariant Examples.scipy_probe [1; 2; 3; 4] 10 2
            BoundsNone _ _ _).
  - lia.
  - lra.
  - repeat constructor; lra.
Defined.

(** ** The forest: range of the mean and failing members *)

Lemma total_between (lo hi : R) (l : list R) :
  Forall (fun v => lo <= v <= hi) l ->
  INR (length l) * lo <= total l <= INR (length l) * hi.
Proof.
  induction 1 as [|v l Hv Hl IH].
  - simpl. lra.
  - change (length (v :: l)) with (S (length l)). rewrite S_INR. simpl total. lra.
Qed.

Lemma mean_between (lo hi : R) (l : list R) :
  l <> [] -> Forall (fun v => lo <= v <= hi) l ->
  lo <= total l / INR (length l) <= hi.
Proof.
  intros Hne Hl. pose proof (total_between lo hi l Hl) as [H1 H2].
  assert (0 < INR (length l)) as Hn.
  { apply lt_0_INR. destruct l; [contradiction | simpl; lia]. }
  pose proof (Rinv_0_lt_compat _ Hn) as Hi. unfold Rdiv. split.
  - replace lo with (INR (length l) * lo * / INR (length l)) by (field; lra).
    apply Rmult_le_compat_r; lra.
  - replace hi with (INR (length l) * hi * / INR (length l)) by (field; lra).
    apply Rmult_le_compat_r; lra.
Qed.

Lemma sequence_raise {A : Type} (ts : list (result A)) :
  (exists e, In (Raise e) ts) ->
  exists e', sequence ts = Raise e' /\ In (Raise e') ts.
Proof.
  induction ts as [|t ts IH]; intros [e He]; [contradiction|].
  destruct t as [a|e0].
  - destruct He as [He|He]; [discriminate|].
    destruct (IH (ex_intro _ e He)) as [e' [Hs Hin]].
    exists e'. simpl. rewrite Hs. split; [reflexivity | now right].
  - exists e0. split; [reflexivity | now left].
Qed.

Lemma Parallel_raise {A : Type} (schedule : list nat) (ts : list (result A)) :
  (exists e, In (Raise e) ts) ->
  exists e', snd (Parallel schedule ts) = Raise e' /\ In (Raise e') ts.
Proof.
  intros He. induction schedule as [|i rest IH]; simpl.
  - now apply sequence_raise.
  - destruct (nth_error ts i) as [[a|e0]|] eqn:Hn.
    + destruct (Parallel rest ts). exact IH.
    + exists e0. split; [reflexivity | eapply nth_error_In; exact Hn].
    + destruct (Parallel rest ts). exact IH.
Qed.

Section ForestBehaviour.

Context {deps : ForestDeps}.

Import TimeSeriesForestRegressor.

Lemma tasks_of_members (self : t) (X : matrix) :
  length (estimators_ self) = n_estimators self ->
  length (intervals_ self) = n_estimators self ->
  tasks self X = Ok (map (fun m => _predict X (fst m) (snd m)) (members self)).
Proof.
  intros He Hi. unfold tasks.
  rewrite (generator_members (_predict X) _ _ _ He Hi).
  apply sequence_map_Ok.
Qed.

(** X15: on a fitted forest and a valid batch, [predict] returns one value
    per instance; in exact real arithmetic the value for an instance lies
    between any two bounds that hold for all member predictions for that
    instance: the mean is not outside the range of the members, and where
    the members agree it is their common value. *)
Theorem predict_within_member_range (schedule : list nat) (self : t)
    (X : RawPanel) (Xp : panel) (Xm : matrix) (preds : list (list R)) :
  fitted_forest self -> (0 < n_estimators self)%nat ->
  check_X X = Ok Xp -> squeeze1 Xp = Ok Xm -> ncols Xm = series_length self ->
  member_predictions Xm self preds ->
  exists v,
    snd (predict schedule self X) = Ok (Values v)
    /\ length v = nrows Xm
    /\ forall j lo hi,
         (j < nrows Xm)%nat ->
         (forall p, In p preds -> lo <= nth j p 0 <= hi) ->
         lo <= nth j v 0 <= hi.
Proof.
  intros Hf Hn Hc Hs Hl Hp.
  rewrite (predict_of_fitted schedule self X Xp Xm preds Hf Hn Hc Hs Hl Hp).
  eexists. split; [reflexivity|]. split; [now rewrite length_map, length_seq|].
  intros j lo hi Hj Hb.
  rewrite (nth_indep _ 0 (instance_mean preds 0%nat))
    by (now rewrite length_map, length_seq).
  rewrite map_nth, seq_nth by exact Hj. simpl. unfold instance_mean.
  rewrite <- (length_map (fun p => nth j p 0) preds).
  apply mean_between.
  - destruct (member_predictions_shape Xm self preds Hp) as [_ [_ Hlen]].
    destruct Hf as [_ [He Hi]]. unfold members in Hlen.
    rewrite length_combine in Hlen.
    destruct preds; [simpl in Hlen; lia | discriminate].
  - apply Forall_forall. intros u Hu. apply in_map_iff in Hu.
    destruct Hu as [p [<- Hin]]. now apply Hb.
Qed.

(** X16: when one member of a fitted forest raises on the batch,
    [predict] raises as well, whatever the order of evaluation, and the
    exception is one that a member raised: there is no partial result. *)
Theorem predict_member_failure (schedule : list nat) (self : t)
    (X : RawPanel) (Xp : panel) (Xm : matrix)
    (e : DecisionTreeRegressor) (iv : IntervalSet) (err : exn) :
  fitted_forest self ->
  check_X X = Ok Xp -> squeeze1 Xp = Ok Xm -> ncols Xm = series_length self ->
  In (e, iv) (members self) -> _predict Xm e iv = Raise err ->
  exists err' e' iv',
    snd (predict schedule self X) = Raise err'
    /\ In (e', iv') (members self)
    /\ _predict Xm e' iv' = Raise err'.
Proof.
  intros [Hfit [He Hi]] Hc Hs Hl Hin Herr.
  assert (exists e0,
             In (Raise e0) (map (fun m => _predict Xm (fst m) (snd m)) (members self)))
    as Hex.
  { exists err. apply in_map_iff. exists (e, iv). auto. }
  destruct (Parallel_raise schedule _ Hex) as [err' [Hpar Hin']].
  apply in_map_iff in Hin'. destruct Hin' as [[e' iv'] [Hm' Hmem]].
  exists err', e', iv'. split; [|split; [exact Hmem | exact Hm']].
  unfold predict, check_is_fitted. rewrite Hfit. cbn [bind].
  rewrite Hc. cbn [bind]. rewrite Hs. cbn [bind].
  rewrite Hl, Nat.eqb_refl. simpl negb. cbv iota.
  rewrite (tasks_of_members self Xm He Hi). cbn [bind].
  destruct (Parallel schedule _) as [tr r]. simpl in Hpar. subst r. reflexivity.
Qed.

End ForestBehaviour.

Lemma predict_within_member_range_witness :
  exists v,
    snd (@TimeSeriesForestRegressor.predict Examples.constant_trees
           [0%nat; 1%nat; 2%nat] Examples.forest_1_2_3 Examples.batch)
    = Ok (Values v)
    /\ length v = 2%nat.
Proof.
  destruct (@predict_within_member_range Examples.constant_trees
              [0%nat; 1%nat; 2%nat] Examples.forest_1_2_3 Examples.batch
              Examples.batch Examples.batch_squeezed
              [repeat 1 2%nat; repeat 2 2%nat; repeat 3 2%nat])
    as [v [H1 [H2 _]]].
  - repeat split; reflexivity.
  - simpl. lia.
  - reflexivity.
  - reflexivity.
  - reflexivity.
  - unfold member_predictions. simpl. repeat constructor.
  - exists v. split; [exact H1 | exact H2].
Defined.

Lemma predict_member_failure_witness :
  exists err,
    snd (@TimeSeriesForestRegressor.predict Examples.failing_trees
           [1%nat; 0%nat] Examples.forest_with_failure Examples.batch)
    = Raise err.
Proof.
  destruct (@predict_member_failure Examples.failing_trees [1%nat; 0%nat]
              Examples.forest_with_failure Examples.batch Examples.batch
              Examples.batch_squeezed None [] (ValueError "tree failed"))
    as [err [e' [iv' [H _]]]].
  - repeat split; reflexivity.
  - reflexivity.
  - reflexivity.
  - reflexivity.
  - right. left. reflexivity.
  - reflexivity.
  - exists err. exact H.
Defined.

(** ** What [_fit] leaves in the transformer *)

Section FitBehaviour.

Context {scipy : SciPy} {validation : Validation}.

Import BoxCoxTransformer.

(** X17: a successful [_fit] changes the attribute [lambda_] only; it
    leaves there a vector of two values when the method is "all" and a
    single float for every other method that succeeds ("pearsonr", "mle",
    "guerrero"). *)
Theorem fit_sets_lambda (self self' : t) (Z : Series) :
  _fit self Z = Ok self' ->
  bounds self' = bounds self /\ method self' = method self
  /\ sp self' = sp self /\ _is_fitted self' = _is_fitted self
  /\ (method self = "all"%string -> exists p m, lambda_ self' = Some (LVector [p; m]))
  /\ (method self <> "all"%string -> exists l, lambda_ self' = Some (LScalar l)).
Proof.
  unfold _fit. intros H.
  destruct (check_series Z) as [z|]; [|discriminate]. cbn [bind] in H.
  destruct (String.eqb_spec (method self) "guerrero") as [Hg|Hg];
    simpl negb in H; cbv iota in H.
  - destruct (_guerrero (to_numpy z) (sp self) (bounds self)) as [l|];
      [|discriminate].
    cbn [bind] in H. injection H as <-. simpl. repeat split; try reflexivity.
    + intros Hall. rewrite Hall in Hg. discriminate.
    + intros _. eauto.
  - unfold _boxcox_normmax in H.
    destruct (_make_boxcox_optimizer (bounds self) default_brack) as [opt|];
      [|discriminate].
    cbn [bind] in H.
    destruct (String.eqb_spec (method self) "pearsonr") as [Hp|Hp].
    { destruct (_pearsonr opt (to_numpy z)); [|discriminate].
      cbn [bind] in H. injection H as <-. simpl. repeat split; try reflexivity.
      - intros Hall. rewrite Hall in Hp. discriminate.
      - intros _. eauto. }
    destruct (String.eqb_spec (method self) "mle") as [Hm|Hm].
    { destruct (_mle opt (to_numpy z)); [|discriminate].
      cbn [bind] in H. injection H as <-. simpl. repeat split; try reflexivity.
      - intros Hall. rewrite Hall in Hm. discriminate.
      - intros _. eauto. }
    destruct (String.eqb_spec (method self) "all") as [Ha|Ha]; [|discriminate].
    unfold _all in H.
    destruct (_pearsonr opt (to_numpy z)) as [p|]; [|discriminate].
    cbn [bind] in H. destruct (_mle opt (to_numpy z)) as [m|]; [|discriminate].
    cbn [bind] in H. injection H as <-. simpl. repeat split; try reflexivity.
    + intros _. exists p, m. reflexivity.
    + intros Hna. contradiction.
Qed.

End FitBehaviour.

Lemma fit_sets_lambda_witness :
  exists p m,
    BoxCoxTransformer.lambda_
      (BoxCoxTransformer.mk BoundsNone "all" (Some (LVector [0; 0])) PyNone false)
    = Some (LVector [p; m]).
Proof.
  refine (proj1 (proj2 (proj2 (proj2 (proj2
            (@fit_sets_lambda Examples.scipy_probe Examples.accept_all
               (BoxCoxTransformer.__init__ BoundsNone "all" PyNone)
               (BoxCoxTransformer.mk BoundsNone "all" (Some (LVector [0; 0]))
                  PyNone false)
               Examples.series_1_2 probe_fit_all_1_2))))) _).
  reflexivity.
Defined.

(** * Guerrero: the blocks, the objective and the minimum *)












Section Guerrero.

Context {scipy : SciPy}.


End Guerrero.











(** * Constant and non-positive input on the two paths of the transform *)

Lemma Ok_does_not_fail {A : Type} (a : A) (k : spec_error) : ~ fails_with (Ok a) k.
Proof. intros [e [H _]]. discriminate H. Qed.

Section TransformPaths.

Context {scipy : SciPy} {validation : Validation}.

Import BoxCoxTransformer.

(** C6, amended: on a non-empty constant sequence, whatever the lambda, the
    function [_boxcox] raises "Data must not be constant.", the
    DegenerateInputError of the specification.  The method [_transform] of
    the transformer hands the values to [scipy.special.boxcox] without this
    check: with a scalar lambda it returns a series with the index of its
    input and one value per observation. *)
Theorem constant_input_rejected (x : list R) (lmbda : option lambda_value)
    (bounds : py_bounds) (alpha : option R) :
  x <> [] -> all_equal x ->
  _boxcox (np_asarray x) lmbda bounds alpha = Raise (ValueError Msg.not_constant)
  /\ fails_with (_boxcox (np_asarray x) lmbda bounds alpha) DegenerateInputError
  /\ (forall (self : t) (Z : Series) (l : R),
        lambda_ self = Some (LScalar l) ->
        check_series Z = Ok Z -> well_formed Z -> values Z = x ->
        exists zt,
          _transform self Z = Ok {| index := index Z; values := zt |}
          /\ length zt = length x).
Proof.
  intros Hne Hc.
  assert (_boxcox (np_asarray x) lmbda bounds alpha
          = Raise (ValueError Msg.not_constant)) as E.
  { unfold _boxcox. apply checked_constant;
      auto using ndim_asarray, size_asarray_nonempty. }
  split; [exact E|]. split.
  - rewrite E. eexists. split; reflexivity.
  - intros self Z l Hl Hcs Hw Hx.
    exists (map (fun v => special_boxcox1 v l) (values Z)). split.
    + exact (transform_given_lambda self Z l Hl Hcs Hw).
    + rewrite length_map. now rewrite Hx.
Qed.

(** C7, amended: on a sequence that is not constant and contains a
    non-positive element, whatever the lambda, the function [_boxcox]
    raises "Data must be positive.", the DomainError of the specification.
    The method [_transform] of the transformer hands the values to
    [scipy.special.boxcox] without this check: with a scalar lambda it
    returns a series with the index of its input and one value per
    observation. *)
Theorem non_positive_input_rejected (x : list R) (lmbda : option lambda_value)
    (bounds : py_bounds) (alpha : option R) :
  ~ all_equal x -> has_non_positive x ->
  _boxcox (np_asarray x) lmbda bounds alpha = Raise (ValueError Msg.positive)
  /\ fails_with (_boxcox (np_asarray x) lmbda bounds alpha) DomainError
  /\ (forall (self : t) (Z : Series) (l : R),
        lambda_ self = Some (LScalar l) ->
        check_series Z = Ok Z -> well_formed Z -> values Z = x ->
        exists zt,
          _transform self Z = Ok {| index := index Z; values := zt |}
          /\ length zt = length x).
Proof.
  intros Hnc Hn.
  assert (_boxcox (np_asarray x) lmbda bounds alpha
          = Raise (ValueError Msg.positive)) as E.
  { unfold _boxcox. apply checked_non_positive;
      auto using ndim_asarray, size_asarray_nonempty, has_non_positive_nonempty. }
  split; [exact E|]. split.
  - rewrite E. eexists. split; reflexivity.
  - intros self Z l Hl Hcs Hw Hx.
    exists (map (fun v => special_boxcox1 v l) (values Z)). split.
    + exact (transform_given_lambda self Z l Hl Hcs Hw).
    + rewrite length_map. now rewrite Hx.
Qed.

End TransformPaths.

Lemma constant_input_rejected_witness :
  fails_with
    (@_boxcox Examples.scipy_probe (np_asarray [5; 5; 5; 5]) (Some (LScalar 1))
       BoundsNone None)
    DegenerateInputError
  /\ exists zt,
       @BoxCoxTransformer._transform Examples.accept_all (Examples.fitted 1)
         {| index := [0; 1; 2; 3]%Z; values := [5; 5; 5; 5] |}
       = Ok {| index := [0; 1; 2; 3]%Z; values := zt |}
       /\ length zt = 4%nat.
Proof.
  destruct (@constant_input_rejected Examples.scipy_probe Examples.accept_all
              [5; 5; 5; 5] (Some (LScalar 1)) BoundsNone None)
    as [_ [Hf Ht]].
  - discriminate.
  - exact (all_equal_repeat 5 4).
  - split; [exact Hf|].
    apply (Ht (Examples.fitted 1)
              {| index := [0; 1; 2; 3]%Z; values := [5; 5; 5; 5] |} 1);
      reflexivity.
Defined.

Lemma non_positive_input_rejected_witness :
  fails_with
    (@_boxcox Examples.scipy_probe (np_asarray [1; -2; 3]) (Some (LScalar 1))
       BoundsNone None)
    DomainError
  /\ exists zt,
       @BoxCoxTransformer._transform Examples.accept_all (Examples.fitted 1)
         {| index := [0; 1; 2]%Z; values := [1; -2; 3] |}
       = Ok {| index := [0; 1; 2]%Z; values := zt |}
       /\ length zt = 3%nat.
Proof.
  destruct (@non_positive_input_rejected Examples.scipy_probe Examples.accept_all
              [1; -2; 3] (Some (LScalar 1)) BoundsNone None)
    as [_ [Hf Ht]].
  - exact not_all_equal_1_m2_3.
  - exact has_non_positive_1_m2_3.
  - split; [exact Hf|].
    apply (Ht (Examples.fitted 1)
              {| index := [0; 1; 2]%Z; values := [1; -2; 3] |} 1);
      reflexivity.
Defined.

(** The constant sequence [5, 5, 5, 5] goes through the method [_transform]
    of a transformer with lambda 1 and comes back as [4, 4, 4, 4]: the call
    does not fail. *)
Lemma constant_input_counterexample :
  [5; 5; 5; 5] <> [] /\ all_equal [5; 5; 5; 5]
  /\ @BoxCoxTransformer._transform Examples.accept_all (Examples.fitted 1)
       {| index := [0; 1; 2; 3]%Z; values := [5; 5; 5; 5] |}
     = Ok {| index := [0; 1; 2; 3]%Z; values := [4; 4; 4; 4] |}
  /\ ~ fails_with
         (@BoxCoxTransformer._transform Examples.accept_all (Examples.fitted 1)
            {| index := [0; 1; 2; 3]%Z; values := [5; 5; 5; 5] |})
         DegenerateInputError.
Proof.
  split; [discriminate|]. split; [exact (all_equal_repeat 5 4)|].
  split; [exact transform_method_is_unguarded|].
  rewrite transform_method_is_unguarded. apply Ok_does_not_fail.
Qed.

(** Two sequences with a non-positive element on which the transform does
    not fail with the positivity error: [-3, -3, -3] stops at the constancy
    guard of [_boxcox], and [1, -2, 3] goes through the method [_transform]
    of a transformer without any error. *)
Lemma non_positive_input_counterexample :
  (has_non_positive [-3; -3; -3]
   /\ ~ fails_with
          (@_boxcox Examples.scipy_probe (np_asarray [-3; -3; -3])
             (Some (LScalar 1)) BoundsNone None)
          DomainError)
  /\ (has_non_positive [1; -2; 3]
      /\ ~ fails_with
             (@BoxCoxTransformer._transform Examples.accept_all (Examples.fitted 1)
                {| index := [0; 1; 2]%Z; values := [1; -2; 3] |})
             DomainError).
Proof.
  split.
  - destruct constant_non_positive_counterexample as [H1 [_ H2]]. auto.
  - split; [exact has_non_positive_1_m2_3|].
    rewrite (@transform_given_lambda Examples.accept_all (Examples.fitted 1)
               {| index := [0; 1; 2]%Z; values := [1; -2; 3] |} 1
               eq_refl eq_refl eq_refl).
    apply Ok_does_not_fail.
Qed.

(** * The round trip and the range of float64 *)

Lemma to_f64_in_range (r : R) :
  - f64_overflow < r < f64_overflow -> to_f64 r = Fin r.
Proof.
  intros [Hlo Hhi]. unfold to_f64.
  destruct (Rle_dec f64_overflow r); [lra|].
  destruct (Rle_dec r (- f64_overflow)); [lra | reflexivity].
Qed.

Lemma to_f64_overflows (r : R) : f64_overflow <= r -> to_f64 r = PosInf.
Proof.
  intros H. unfold to_f64. destruct (Rle_dec f64_overflow r); [reflexivity | lra].
Qed.

Lemma f64_overflow_large : 262144 <= f64_overflow.
Proof.
  unfold f64_overflow. apply Rle_trans with (2 ^ 18).
  - assert (2 ^ 18 = 262144) as -> by (simpl; lra). lra.
  - apply Rle_pow; [lra | lia].
Qed.

Lemma pow2_le_exp (n : nat) : 2 ^ n <= exp (INR n).
Proof.
  induction n as [|n IH].
  - simpl. rewrite exp_0. lra.
  - rewrite S_INR, exp_plus. change (2 ^ S n) with (2 * 2 ^ n).
    pose proof (exp_ineq1 1 ltac:(lra)) as H1.
    assert (0 < 2 ^ n) as Hp by (apply pow_lt; lra).
    nra.
Qed.

Lemma exp_2000_overflows : f64_overflow + 1 <= exp 2000.
Proof.
  assert (2 ^ 1025 <= exp 2000) as H.
  { apply Rle_trans with (2 ^ 2000).
    - apply Rle_pow; [lra | lia].
    - replace 2000 with (INR 2000) by (rewrite INR_IZR_INZ; reflexivity).
      apply pow2_le_exp. }
  unfold f64_overflow. change (2 ^ 1025) with (2 * 2 ^ 1024) in H.
  assert (1 <= 2 ^ 1024) as H1 by (apply pow_R1_Rle; lra).
  lra.
Qed.

Lemma ln_lt_self (x : R) : 0 < x -> ln x < x.
Proof.
  intros Hx. pose proof (exp_ineq1 x ltac:(lra)) as H.
  rewrite <- (ln_exp x) at 2. apply ln_increasing; lra.
Qed.

Lemma one_lt_ln_10 : 1 < ln 10.
Proof.
  rewrite <- (ln_exp 1). apply ln_increasing; [apply exp_pos|].
  pose proof exp_le_3. lra.
Qed.

(** For a value between 10 and 100 and lambda 2000, [x^lambda] leaves the
    range of float64: the transform is an infinity, and so is what the
    inverse makes of it. *)
Lemma f64_boxcox_overflows (x : R) :
  10 <= x <= 100 -> f64_boxcox (Fin x) 2000 = PosInf.
Proof.
  intros [Hlo Hhi]. pose proof f64_overflow_large as Hbig.
  assert (1 < ln x) as Hln1.
  { pose proof one_lt_ln_10. destruct Hlo as [Hlt|<-]; [|assumption].
    pose proof (ln_increasing 10 x ltac:(lra) Hlt). lra. }
  pose proof (ln_lt_self x ltac:(lra)) as Hlnx.
  unfold f64_boxcox. destruct (Req_dec_T 2000 0) as [E|_]; [lra|].
  unfold f64_log. destruct (Rlt_dec 0 x) as [_|N]; [|lra].
  rewrite to_f64_in_range by lra.
  unfold f64_scale. rewrite to_f64_in_range by lra.
  unfold f64_expm1. rewrite to_f64_overflows.
  - unfold f64_unscale. destruct (Rlt_dec 0 2000); [reflexivity | lra].
  - pose proof exp_2000_overflows as H2000.
    assert (exp 2000 <= exp (2000 * ln x)) as Hexp.
    { destruct (Req_dec_T 2000 (2000 * ln x)) as [<-|Hne]; [lra|].
      left. apply exp_increasing. lra. }
    lra.
Qed.

Lemma f64_inv_boxcox_of_infinity : f64_inv_boxcox PosInf 2000 = PosInf.
Proof.
  unfold f64_inv_boxcox. destruct (Req_dec_T 2000 0) as [E|_]; [lra|].
  unfold f64_scale. destruct (Rlt_dec 0 2000) as [_|N]; [|lra].
  unfold f64_log1p, f64_unscale. destruct (Rlt_dec 0 2000) as [_|N]; [|lra].
  reflexivity.
Qed.

Lemma not_all_equal_10_20 : ~ all_equal [10; 20].
Proof.
  intros H. specialize (H 10 20 (or_introl eq_refl) (or_intror (or_introl eq_refl))). lra.
Qed.

(** The sequence [10, 20] is strictly positive and not constant, and with
    lambda 2000 the values of the transform leave the range of float64:
    the round trip returns infinities, not the sequence. *)
Lemma roundtrip_overflow_counterexample :
  strictly_positive [10; 20] /\ ~ all_equal [10; 20]
  /\ f64_roundtrip [10; 20] 2000 = [PosInf; PosInf]
  /\ f64_roundtrip [10; 20] 2000 <> [Fin 10; Fin 20].
Proof.
  assert (f64_roundtrip [10; 20] 2000 = [PosInf; PosInf]) as E.
  { unfold f64_roundtrip. cbn [map].
    rewrite !f64_boxcox_overflows by lra.
    now rewrite f64_inv_boxcox_of_infinity. }
  split; [repeat constructor; lra|]. split; [exact not_all_equal_10_20|].
  split; [exact E|]. rewrite E. discriminate.
Qed.
